(** * clearml_serving.serving.preprocess_service

    A shallow embedding of the request-dispatch core: the engine registry,
    the plugin loader, the preprocess / process / postprocess stages and the
    tensor marshalling of the remote tensor-server adapter.

    Python objects are modelled by records, dictionaries by [gmap],
    exceptions by an explicit result type, and the calls into collaborators
    (artifact store, HTTP client, gRPC stub) by oracles whose calls are
    recorded in a trace. *)

From Stdlib Require Import ZArith List String Ascii Lia.
From stdpp Require Import base option list gmap strings fin_maps pretty.

Local Open Scope string_scope.

(** ** Python results and exceptions *)

Module Py.

(** Instances of [Exception], with the text [str(ex)] gives. *)
Inductive exn :=
| ValueError (msg : string)
| AttributeError (msg : string)
| TypeError (msg : string)
| IndexError (msg : string)
| OtherError (cls : string) (msg : string).

Definition str (e : exn) : string :=
  match e with
  | ValueError m | AttributeError m | TypeError m | IndexError m => m
  | OtherError _ m => m
  end.

(** A call either returns or raises. *)
Inductive result (A : Type) :=
| Return (a : A)
| Raise (e : exn).
Arguments Return {A} a.
Arguments Raise {A} e.

Definition bind {A B} (m : result A) (k : A -> result B) : result B :=
  match m with
  | Return a => k a
  | Raise e => Raise e
  end.

(** [str.format] with positional [{}] holes. *)
Fixpoint format (template : string) (args : list string) : string :=
  match template with
  | EmptyString => EmptyString
  | String "{" (String "}" rest) =>
      match args with
      | a :: args' => a +:+ format rest args'
      | [] => format rest []
      end
  | String c rest => String c (format rest args)
  end.

End Py.

(** The [x ← m; k] notation of stdpp, for code that may raise. *)
#[global] Instance result_ret : MRet Py.result := @Py.Return.
#[global] Instance result_bind : MBind Py.result := fun A B k m => Py.bind m k.

(** ** Engine registry *)

Module Registry.

(** The adapter classes this module defines. *)
Inductive engine_cls :=
| TritonPreprocessRequest
| SKLearnPreprocessRequest
| XGBoostPreprocessRequest
| LightGBMPreprocessRequest
| CustomPreprocessRequest.

(** The two class-level containers of [BasePreprocessRequest]. *)
Record registry := {
  preprocessing_lookup : gmap string engine_cls;
  preprocessing_modules : gset string
}.

Definition empty : registry :=
  {| preprocessing_lookup := ∅; preprocessing_modules := ∅ |}.

Definition validate_engine_type (r : registry) (engine : string) : bool :=
  bool_decide (engine ∈ dom (preprocessing_lookup r)).

Definition get_engine_cls (r : registry) (engine : string) : option engine_cls :=
  preprocessing_lookup r !! engine.

(** The inner [wrapper(cls)] of [register_engine]. *)
Definition wrapper (engine_name : string) (cls : engine_cls) (r : registry)
  : registry * engine_cls :=
  ({| preprocessing_lookup := <[engine_name := cls]> (preprocessing_lookup r);
      preprocessing_modules := preprocessing_modules r |}, cls).

(** [register_engine(engine_name, modules)]: records the module names when
    the list is given and not empty, and hands back the wrapper. *)
Definition register_engine (engine_name : string) (modules : option (list string))
    (r : registry) : registry * (engine_cls -> registry -> registry * engine_cls) :=
  let r' :=
    match modules with
    | Some (m :: ms) =>
        {| preprocessing_lookup := preprocessing_lookup r;
           preprocessing_modules := preprocessing_modules r ∪ list_to_set (m :: ms) |}
    | _ => r
    end in
  (r', wrapper engine_name).

(** [@register_engine(name, modules=...) class cls]. *)
Definition decorate (reg : string * option (list string) * engine_cls)
    (r : registry) : registry :=
  let '(name, modules, cls) := reg in
  let '(r1, w) := register_engine name modules r in
  fst (w cls r1).

(** A run of registrations, first to last. *)
Definition registrations (regs : list (string * option (list string) * engine_cls))
    (r : registry) : registry :=
  fold_left (fun acc reg => decorate reg acc) regs r.

Definition reg_name (reg : string * option (list string) * engine_cls) : string :=
  fst (fst reg).

(** The registrations the module performs when it is imported. *)
Definition module_registrations : list (string * option (list string) * engine_cls) :=
  [ ("triton", Some ["grpc"; "tritonclient"], TritonPreprocessRequest);
    ("sklearn", Some ["joblib"; "sklearn"], SKLearnPreprocessRequest);
    ("xgboost", Some ["xgboost"], XGBoostPreprocessRequest);
    ("lightgbm", Some ["lightgbm"], LightGBMPreprocessRequest);
    ("custom", None, CustomPreprocessRequest) ].

Definition module_registry : registry := registrations module_registrations empty.

(** [load_modules]: imports every recorded module, a failed import is
    passed over.  The result is the list of modules that were imported. *)
Definition load_modules (importable : string -> bool) (r : registry) : list string :=
  filter (fun m => importable m = true) (elements (preprocessing_modules r)).

End Registry.

(** ** The parts of numpy the adapter calls *)

Module Numpy.

Local Open Scope Z_scope.

(** The type objects an element type can be given by.  [np_int] and
    [np_bool] are [np.int] and [np.bool], which are Python's own [int] and
    [bool] in every numpy that has both names, as the table of the remote
    tensor adapter needs; all the others are numpy's scalar types,
    [np_bool_] being [numpy.bool_]. *)
Inductive dtype :=
| np_uint8 | np_int8 | np_int64 | np_uint64 | np_int | np_bool | np_bool_
| np_float32 | np_float64
| np_int16 | np_int32 | np_uint16 | np_uint32 | np_float16
| np_complex64 | np_complex128.

(** [np.uint] is the unsigned C long: one and the same type object as
    [np.uint64]. *)
Definition np_uint : dtype := np_uint64.

(** [np.dtype(t).type]: the numpy scalar type a type object stands for. *)
Definition dtype_type (t : dtype) : dtype :=
  match t with
  | np_int => np_int64
  | np_bool => np_bool_
  | _ => t
  end.

#[global] Instance dtype_eq_dec : EqDecision dtype.
Proof. solve_decision. Defined.

Inductive kind := Signed | Unsigned | Boolean | Floating | Complex.

Definition dtype_kind (dt : dtype) : kind :=
  match dt with
  | np_int8 | np_int16 | np_int32 | np_int64 | np_int => Signed
  | np_uint8 | np_uint16 | np_uint32 | np_uint64 => Unsigned
  | np_bool | np_bool_ => Boolean
  | np_float16 | np_float32 | np_float64 => Floating
  | np_complex64 | np_complex128 => Complex
  end.

(** Bytes per element (Python's [int] is taken as the 64-bit C long). *)
Definition itemsize (dt : dtype) : nat :=
  match dt with
  | np_uint8 | np_int8 | np_bool | np_bool_ => 1
  | np_int16 | np_uint16 | np_float16 => 2
  | np_int32 | np_uint32 | np_float32 => 4
  | np_int64 | np_uint64 | np_int | np_float64 | np_complex64 => 8
  | np_complex128 => 16
  end%nat.

Definition type_name (dt : dtype) : string :=
  match dt with
  | np_uint8 => "uint8" | np_int8 => "int8" | np_int64 => "int64"
  | np_uint64 => "uint64" | np_int => "int"
  | np_bool => "bool" | np_bool_ => "bool_"
  | np_float32 => "float32" | np_float64 => "float64"
  | np_int16 => "int16" | np_int32 => "int32" | np_uint16 => "uint16"
  | np_uint32 => "uint32" | np_float16 => "float16"
  | np_complex64 => "complex64" | np_complex128 => "complex128"
  end.

(** [str(t)] of a type object. *)
Definition type_repr (dt : dtype) : string :=
  match dt with
  | np_int | np_bool => "<class '" +:+ type_name dt +:+ "'>"
  | _ => "<class 'numpy." +:+ type_name dt +:+ "'>"
  end.

Definition bits (dt : dtype) : Z := 8 * Z.of_nat (itemsize dt).

(** An element is an integer: the number itself for the integer types,
    0 or 1 for booleans, and the bit pattern of the machine representation
    for floating and complex elements (two arrays of those are compared
    pattern by pattern). *)
Definition in_range (dt : dtype) (v : Z) : Prop :=
  match dtype_kind dt with
  | Signed => - 2 ^ (bits dt - 1) <= v < 2 ^ (bits dt - 1)
  | Boolean => 0 <= v <= 1
  | Unsigned | Floating | Complex => 0 <= v < 2 ^ bits dt
  end.

Definition byte_of_Z (z : Z) : Byte.byte :=
  match Byte.of_N (Z.to_N z) with
  | Some b => b
  | None => Byte.x00
  end.

Definition Z_of_byte (b : Byte.byte) : Z := Z.of_N (Byte.to_N b).

(** Little-endian image of a non-negative number on [w] bytes. *)
Fixpoint le_encode (w : nat) (z : Z) : list Byte.byte :=
  match w with
  | O => []
  | S w' => byte_of_Z (z mod 256) :: le_encode w' (z / 256)
  end.

Fixpoint le_decode (bs : list Byte.byte) : Z :=
  match bs with
  | [] => 0
  | b :: bs' => Z_of_byte b + 256 * le_decode bs'
  end.

(** The bytes of one element in memory. *)
Definition to_bytes (dt : dtype) (v : Z) : list Byte.byte :=
  le_encode (itemsize dt) (v mod 2 ^ bits dt).

(** The element a run of [itemsize dt] bytes is read as. *)
Definition of_bytes (dt : dtype) (bs : list Byte.byte) : Z :=
  let p := le_decode bs in
  match dtype_kind dt with
  | Signed => if p <? 2 ^ (bits dt - 1) then p else p - 2 ^ bits dt
  | Boolean => if p =? 0 then 0 else 1
  | Unsigned | Floating | Complex => p
  end.

(** An n-dimensional array: element type, shape, and the elements in
    row-major order.  The element type is kept as the type object it was
    given by; two type objects of one scalar type ([dtype_type]) give one
    element type, with the same elements and the same bytes. *)
Record ndarray := {
  nd_dtype : dtype;
  nd_shape : list Z;
  nd_data : list Z
}.

Definition prod_shape (shape : list Z) : Z := fold_right Z.mul 1 shape.

(** What holds of every array numpy hands out. *)
Definition wf (a : ndarray) : Prop :=
  Forall (fun d => 0 <= d) (nd_shape a)
  /\ Z.of_nat (length (nd_data a)) = prod_shape (nd_shape a)
  /\ Forall (in_range (nd_dtype a)) (nd_data a).

(** [a.flatten()]: a one-dimensional copy, row-major. *)
Definition flatten (a : ndarray) : ndarray :=
  {| nd_dtype := nd_dtype a;
     nd_shape := [Z.of_nat (length (nd_data a))];
     nd_data := nd_data a |}.

(** [a.tobytes()]: the elements' bytes, row-major. *)
Definition tobytes (a : ndarray) : list Byte.byte :=
  concat (map (to_bytes (nd_dtype a)) (nd_data a)).

(** [n] consecutive groups of [w] items. *)
Fixpoint chunks {A} (w n : nat) (l : list A) : list (list A) :=
  match n with
  | O => []
  | S n' => take w l :: chunks w n' (drop w l)
  end.

(** The elements a buffer holds, read [itemsize dt] bytes at a time. *)
Definition buffer_elements (dt : dtype) (buf : list Byte.byte) : list Z :=
  map (of_bytes dt) (chunks (itemsize dt) (length buf / itemsize dt) buf).

(** [np.frombuffer(buf, dtype=dt)]. *)
Definition frombuffer (buf : list Byte.byte) (dt : dtype) : Py.result ndarray :=
  if (length buf mod itemsize dt =? 0)%nat then
    Py.Return {| nd_dtype := dt;
                 nd_shape := [Z.of_nat (length buf / itemsize dt)];
                 nd_data := buffer_elements dt buf |}
  else Py.Raise (Py.ValueError "buffer size must be a multiple of element size").

(** [np.resize(a, new_shape)]: the flattened elements are repeated as
    often as needed and cut to the new size; from an array with no
    element, or to a shape with no element, the result is filled with
    zeros. *)
Definition resize (a : ndarray) (new_shape : list Z) : Py.result ndarray :=
  if existsb (fun d => d <? 0) new_shape then
    Py.Raise (Py.ValueError "all elements of `new_shape` must be non-negative")
  else
    let new_size := Z.to_nat (prod_shape new_shape) in
    let flat := nd_data a in
    if ((length flat =? 0) || (new_size =? 0))%nat then
      Py.Return {| nd_dtype := nd_dtype a; nd_shape := new_shape;
                   nd_data := repeat 0 new_size |}
    else
      let repeats := ((new_size + length flat - 1) / length flat)%nat in
      Py.Return {| nd_dtype := nd_dtype a; nd_shape := new_shape;
                   nd_data := take new_size (concat (repeat flat repeats)) |}.

End Numpy.

(** ** Values, wire messages and the trace of outbound calls *)

Module Serving.
Import Numpy.

Local Open Scope Z_scope.

(** The Python values that travel through the pipeline. *)
#[warnings="-register-all"]
Inductive value :=
| VNone
| VBool (b : bool)
| VInt (z : Z)
| VStr (s : string)
| VList (l : list value)
| VDict (d : list (string * value))
| VArray (a : ndarray)
| VObject (id : string).

(** The fields of [ModelEndpoint] this file reads. *)
Record ModelEndpoint := {
  serving_url : string;
  version : string;
  model_id : string;
  preprocess_artifact : option string;
  input_name : string;
  input_type : dtype;
  input_size : list Z;
  output_name : string;
  output_type : dtype
}.

(** The messages of the tensor-server protocol.  [in_contents] is the
    [contents] sub-message: each of its repeated fields, by name, with the
    elements put there (a field never written is absent). *)
Record InferInputTensor := {
  in_name : string;
  in_datatype : string;
  in_shape : list Z;
  in_contents : gmap string (list Z)
}.

Record InferRequestedOutputTensor := { out_name : string }.

Record ModelInferRequest := {
  model_name : string;
  model_version : string;
  inputs : list InferInputTensor;
  outputs : list InferRequestedOutputTensor
}.

Record InferOutputTensor := { o_name : string; o_shape : list Z }.

Record ModelInferResponse := {
  resp_outputs : list InferOutputTensor;
  raw_output_contents : list (list Byte.byte)
}.

(** What the HTTP client hands back: the [ok] flag and what [json()]
    gives. *)
Record Response := { ok : bool; json : Py.result value }.

(** Calls that leave the process, and what is printed. *)
Inductive event :=
| EvGetLocalCopy (artifact : string) (extract_archive : option bool) (force_download : bool)
| EvPrint (msg : string)
| EvExecModule (path : string)
| EvModelLocalCopy (model : string)
| EvPost (url : string) (data : value) (timeout : option Z)
| EvInsecureChannel (address : string)
| EvModelInfer (request : ModelInferRequest) (compression : string) (timeout : option Z)
| EvStatistics (stats : value).

(** A computation: how it ends, and the calls it made on the way. *)
Record io (A : Type) := IO { outcome : Py.result A; trace : list event }.
Arguments IO {A} outcome trace.
Arguments outcome {A} i.
Arguments trace {A} i.

Definition ret {A} (a : A) : io A := IO (Py.Return a) [].

Definition raise {A} (e : Py.exn) : io A := IO (Py.Raise e) [].

Definition bind {A B} (m : io A) (k : A -> io B) : io B :=
  match outcome m with
  | Py.Return a => let n := k a in IO (outcome n) (trace m ++ trace n)
  | Py.Raise e => IO (Py.Raise e) (trace m)
  end.

(** A pure step that may raise. *)
Definition lift {A} (r : Py.result A) : io A := IO r [].

(** A call to a collaborator: it is recorded, then it returns or raises. *)
Definition call {A} (ev : event) (r : Py.result A) : io A := IO r [ev].

Definition emit (ev : event) : io unit := IO (Py.Return tt) [ev].

(** [try: m except Exception as ex: h ex]. *)
Definition try_except {A} (m : io A) (h : Py.exn -> io A) : io A :=
  match outcome m with
  | Py.Return _ => m
  | Py.Raise e => let n := h e in IO (outcome n) (trace m ++ trace n)
  end.

#[global] Instance io_ret : MRet io := @ret.
#[global] Instance io_bind : MBind io := fun A B k m => bind m k.

(** ** Strings *)

Fixpoint lstrip (c : ascii) (s : string) : string :=
  match s with
  | String a rest => if Ascii.eqb a c then lstrip c rest else s
  | EmptyString => EmptyString
  end.

Fixpoint rev_string (s acc : string) : string :=
  match s with
  | EmptyString => acc
  | String a rest => rev_string rest (String a acc)
  end.

(** [s.strip(c)] for a one-character set. *)
Definition strip (c : ascii) (s : string) : string :=
  rev_string (lstrip c (rev_string (lstrip c s) "")) "".

(** [x or default] on an optional string. *)
Definition or_str (x : option string) (default : string) : string :=
  match x with
  | Some (String a rest) => String a rest
  | _ => default
  end.

(** ** Class-level state, plugins, collaborators *)

(** The class attributes of [BasePreprocessRequest] that are read at
    request time. *)
Record class_state := {
  cls_server_config : gmap string string;
  cls_timeout : option Z
}.

Definition _default_serving_base_url : string := "http://127.0.0.1:8080/serve/".

(** The class as the module body leaves it. *)
Definition class_init : class_state :=
  {| cls_server_config := ∅; cls_timeout := None |}.

Definition set_server_config (cs : class_state) (server_config : gmap string string)
  : class_state :=
  {| cls_server_config := server_config; cls_timeout := cls_timeout cs |}.

Definition get_server_config (cs : class_state) : gmap string string :=
  cls_server_config cs.

(** An attribute of a user object: a method, run against the class state
    of the moment of the call, or a plain value. *)
Inductive attr :=
| Method (f : class_state -> list value -> io value)
| Attr (v : value).

(** A plugin instance: what its class holds and what the instance holds. *)
Record plugin := {
  class_attrs : gmap string attr;
  inst_attrs : gmap string attr
}.

Definition getattr (p : plugin) (name : string) : option attr :=
  match inst_attrs p !! name with
  | Some a => Some a
  | None => class_attrs p !! name
  end.

Definition hasattr (p : plugin) (name : string) : bool :=
  bool_decide (is_Some (getattr p name)).

(** [callable(getattr(p, name, None))]. *)
Definition callable (a : option attr) : bool :=
  match a with
  | Some (Method _) => true
  | _ => false
  end.

(** [p.name(args)]. *)
Definition call_method (cs : class_state) (p : plugin) (name : string)
    (args : list value) : io value :=
  match getattr p name with
  | Some (Method f) => f cs args
  | Some (Attr _) => raise (Py.TypeError "object is not callable")
  | None =>
      raise (Py.AttributeError
               (Py.format "'Preprocess' object has no attribute '{}'" [name]))
  end.

(** A class found in a loaded module: its attributes, and what calling it
    does (the result is the new instance's own attributes). *)
Record pyclass := {
  cls_dict : gmap string attr;
  cls_new : io (gmap string attr)
}.

Record Artifact := {
  hash : option string;
  get_local_copy : option bool -> bool -> Py.result string
}.

Record Task := {
  id : string;
  artifacts : gmap string Artifact
}.

(** The collaborators, as the functions of their arguments they are for
    the length of one call into this module. *)
Record world := {
  (** [GUNICORN_SERVING_TIMEOUT], when set; a whole number of seconds. *)
  environ_serving_timeout : option Z;
  (** the hash half of [sha256sum(path, block_size)] *)
  sha256sum : string -> Py.result (option string);
  (** [spec_from_file_location], [module_from_spec] and [exec_module] *)
  exec_module : string -> Py.result (gmap string pyclass);
  (** [Model(model_id=...).get_local_copy()] *)
  model_get_local_copy : string -> Py.result string;
  request_post : string -> value -> option Z -> Py.result Response;
  insecure_channel : string -> Py.result unit;
  ModelInfer : ModelInferRequest -> Py.result ModelInferResponse;
  np_to_triton_dtype : dtype -> Py.result string;
  (** [np.array(data, dtype)] where [data] is not yet an array of that
      element type *)
  np_convert : value -> dtype -> Py.result ndarray
}.

(** ** BasePreprocessRequest *)

(** The instance attributes.  [_timeout] is the entry of the instance's
    own dictionary: [None] while no assignment to [self._timeout] was
    made. *)
Record BasePreprocessRequest := {
  model_endpoint : ModelEndpoint;
  _preprocess : option plugin;
  _model : value;
  _timeout : option Z
}.

(** Reading [self._timeout]: the instance's own attribute when it has
    one, the class attribute otherwise. *)
Definition self_timeout (cs : class_state) (self : BasePreprocessRequest) : option Z :=
  match _timeout self with
  | Some t => Some t
  | None => cls_timeout cs
  end.

(** [self._preprocess is not None and hasattr(self._preprocess, name)]:
    the plugin, when the condition holds. *)
Definition plugin_with (self : BasePreprocessRequest) (name : string) : option plugin :=
  match _preprocess self with
  | Some p => if hasattr p name then Some p else None
  | None => None
  end.

(** Double-precision numbers, as far as the timeout needs them: a finite
    double is [m * 2^e], kept as the pair [(m, e)]. *)

(** The double nearest to [m * 2^e]: a number of more than 53 significant
    bits is rounded to 53, to the even neighbour when half way. *)
Definition round_double (m e : Z) : Z * Z :=
  let n := Z.abs m in
  let len := if n =? 0 then 0 else Z.log2 n + 1 in
  if len <=? 53 then (m, e)
  else
    let s := len - 53 in
    let q := n / 2 ^ s in
    let r := n mod 2 ^ s in
    let half := 2 ^ (s - 1) in
    let q' := if (half <? r) || ((r =? half) && Z.odd q) then q + 1 else q in
    (Z.sgn m * q', e + s).

(** The double the literal [0.8] denotes: 7205759403792794 / 2^53. *)
Definition double_0_8 : Z * Z := (7205759403792794, -53).

Definition double_mul (x y : Z * Z) : Z * Z :=
  round_double (fst x * fst y) (snd x + snd y).

(** [int(x)]: the fraction is cut off, towards zero. *)
Definition double_to_int (x : Z * Z) : Z :=
  if 0 <=? snd x then fst x * 2 ^ snd x else Z.quot (fst x) (2 ^ (- snd x)).

(** [int(float(os.environ.get('GUNICORN_SERVING_TIMEOUT', 600)) * 0.8)], for
    a variable that holds a whole number of seconds (of a size [float]
    takes to a finite double). *)
Definition derive_timeout (w : world) : Z :=
  double_to_int
    (double_mul (round_double (default 600 (environ_serving_timeout w)) 0) double_0_8).

(** The address [_preprocess_send_request] posts to (its first four
    lines). *)
Definition request_url (cs : class_state) (endpoint : string)
    (version : option string) : string :=
  let endpoint :=
    match version with
    | Some (String a rest) =>
        Py.format "{}/{}" [strip "/" endpoint; strip "/" (String a rest)]
    | _ => strip "/" endpoint
    end in
  let base_url := get_server_config cs !! "base_serving_url" in
  let base_url := strip "/" (or_str base_url _default_serving_base_url) in
  Py.format "{}/{}" [base_url; strip "/" endpoint].

(** [BasePreprocessRequest._preprocess_send_request], the function put on
    the plugin class as [send_request]. *)
Definition _preprocess_send_request (w : world) (cs : class_state)
    (endpoint : string) (version : option string) (data : value) : io value :=
  let url := request_url cs endpoint version in
  return_value ← call (EvPost url data (cls_timeout cs))
                      (request_post w url data (cls_timeout cs));
  if negb (ok return_value) then ret VNone
  else lift (json return_value).

(** The same, as the bound method the plugin calls. *)
Definition send_request_method (w : world) : attr :=
  Method (fun cs args =>
    match args with
    | [VStr endpoint] => _preprocess_send_request w cs endpoint None VNone
    | [VStr endpoint; VNone] => _preprocess_send_request w cs endpoint None VNone
    | [VStr endpoint; VStr version] =>
        _preprocess_send_request w cs endpoint (Some version) VNone
    | [VStr endpoint; VNone; data] => _preprocess_send_request w cs endpoint None data
    | [VStr endpoint; VStr version; data] =>
        _preprocess_send_request w cs endpoint (Some version) data
    | _ => raise (Py.TypeError "send_request: bad arguments")
    end).

Definition _get_local_model_file (w : world) (self : BasePreprocessRequest) : io string :=
  let model := model_id (model_endpoint self) in
  call (EvModelLocalCopy model) (model_get_local_copy w model).

(** [task.artifacts[name]]. *)
Definition artifact_of (task : Task) (name : string) : io Artifact :=
  match artifacts task !! name with
  | Some a => ret a
  | None => raise (Py.OtherError "KeyError" name)
  end.

(** The first part of [_instantiate_custom_preprocess_cls], up to the
    import: the local path of the preprocessing code. *)
Definition local_preprocess_path (w : world) (name : string) (task : Task) : io string :=
  a ← artifact_of task name;
  path ← call (EvGetLocalCopy name None false) (get_local_copy a None false);
  file_hash ← lift (sha256sum w path);
  a ← artifact_of task name;
  if bool_decide (file_hash ≠ hash a) then
    _ ← emit (EvPrint (Py.format "INFO: re-downloading artifact '{}' hash changed" [name]));
    a ← artifact_of task name;
    call (EvGetLocalCopy name (Some true) true) (get_local_copy a (Some true) true)
  else
    a ← artifact_of task name;
    call (EvGetLocalCopy name (Some true) false) (get_local_copy a (Some true) false).

Definition _instantiate_custom_preprocess_cls (cs : class_state) (w : world)
    (self : BasePreprocessRequest) (name : string) (task : Task)
    : io BasePreprocessRequest :=
  path ← local_preprocess_path w name task;
  _preprocess_module ← call (EvExecModule path) (exec_module w path);
  Preprocess ←
    match _preprocess_module !! "Preprocess" with
    | Some c => ret c
    | None => raise (Py.AttributeError "module 'Preprocess' has no attribute 'Preprocess'")
    end;
  let Preprocess :=
    {| cls_dict := <["send_request" := send_request_method w]> (cls_dict Preprocess);
       cls_new := cls_new Preprocess |} in
  inst ← cls_new Preprocess;
  let p := {| class_attrs := cls_dict Preprocess; inst_attrs := inst |} in
  let self :=
    {| model_endpoint := model_endpoint self; _preprocess := Some p;
       _model := _model self; _timeout := _timeout self |} in
  if callable (getattr p "load") then
    model_file ← _get_local_model_file w self;
    m ← call_method cs p "load" [VStr model_file];
    ret {| model_endpoint := model_endpoint self; _preprocess := _preprocess self;
           _model := m; _timeout := _timeout self |}
  else ret self.

(** [x] as a condition, for an optional string. *)
Definition truthy (x : option string) : option string :=
  match x with
  | Some (String a rest) => Some (String a rest)
  | _ => None
  end.

(** The first lines of [__init__]: the attributes are set, and
    [self._timeout] is assigned when reading it gives [None]. *)
Definition new_instance (cs : class_state) (w : world) (endpoint : ModelEndpoint)
  : BasePreprocessRequest :=
  let self :=
    {| model_endpoint := endpoint; _preprocess := None; _model := VNone;
       _timeout := None |} in
  match self_timeout cs self with
  | None =>
      {| model_endpoint := endpoint; _preprocess := None; _model := VNone;
         _timeout := Some (derive_timeout w) |}
  | Some _ => self
  end.

Definition __init__ (cs : class_state) (w : world) (endpoint : ModelEndpoint)
    (task : option Task) : io BasePreprocessRequest :=
  let self := new_instance cs w endpoint in
  match truthy (preprocess_artifact endpoint) with
  | Some name =>
      match task with
      | None => raise (Py.AttributeError "'NoneType' object has no attribute 'id'")
      | Some t =>
          if bool_decide (name ∈ dom (artifacts t)) then
            try_except (_instantiate_custom_preprocess_cls cs w self name t)
              (fun ex =>
                 raise (Py.ValueError
                          (Py.format "Error: Failed loading preprocess code for '{}': {}"
                                     [name; Py.str ex])))
          else
            raise (Py.ValueError
                     (Py.format "Error: could not find preprocessing artifact '{}' on Task id={}"
                                [name; id t]))
      end
  | None => ret self
  end.

Definition preprocess (cs : class_state) (self : BasePreprocessRequest)
    (request : value) (collect_custom_statistics_fn : value) : io value :=
  match plugin_with self "preprocess" with
  | Some p => call_method cs p "preprocess" [request; collect_custom_statistics_fn]
  | None => ret request
  end.

Definition postprocess (cs : class_state) (self : BasePreprocessRequest)
    (data : value) (collect_custom_statistics_fn : value) : io value :=
  match plugin_with self "postprocess" with
  | Some p => call_method cs p "postprocess" [data; collect_custom_statistics_fn]
  | None => ret data
  end.

(** [BasePreprocessRequest.process]: [pass]. *)
Definition base_process (cs : class_state) (self : BasePreprocessRequest)
    (data : value) (collect_custom_statistics_fn : value) : io value :=
  ret VNone.

Definition custom_process (cs : class_state) (self : BasePreprocessRequest)
    (data : value) (collect_custom_statistics_fn : value) : io value :=
  match plugin_with self "process" with
  | Some p => call_method cs p "process" [data; collect_custom_statistics_fn]
  | None => ret VNone
  end.

(** ** TritonPreprocessRequest *)

(** [d.get(key)] on a dictionary kept as its list of items. *)
Fixpoint dict_get {V} (d : list (dtype * V)) (key : dtype) : option V :=
  match d with
  | [] => None
  | (k, v) :: rest => if decide (k = key) then Some v else dict_get rest key
  end.

(** [d[key] = v]: the value of a key that is there is replaced. *)
Fixpoint dict_set {V} (d : list (dtype * V)) (key : dtype) (v : V) : list (dtype * V) :=
  match d with
  | [] => [(key, v)]
  | (k, x) :: rest =>
      if decide (k = key) then (k, v) :: rest else (k, x) :: dict_set rest key v
  end.

(** A dictionary display [{k1: v1, k2: v2, ...}]: the items are entered from
    left to right, so of two items with one key the later one stays. *)
Definition dict_display {V} (items : list (dtype * V)) : list (dtype * V) :=
  fold_left (fun d item => dict_set d (fst item) (snd item)) items [].

(** The table, item by item as the source writes it.  [np_uint] being
    [np_uint64], the sixth item replaces the value of the fourth. *)
Definition _content_lookup : list (dtype * string) :=
  dict_display
    [ (np_uint8, "uint_contents");
      (np_int8, "int_contents");
      (np_int64, "int64_contents");
      (np_uint64, "uint64_contents");
      (np_int, "int_contents");
      (np_uint, "uint_contents");
      (np_bool, "bool_contents");
      (np_float32, "fp32_contents");
      (np_float64, "fp64_contents") ].

(** The values a repeated field of the [contents] message takes: the 32-
    and 64-bit integer fields check each value against their width, the
    other fields have no bound to check. *)
Definition field_bounds (field : string) : option (Z * Z) :=
  if bool_decide (field = "int_contents") then Some (- 2 ^ 31, 2 ^ 31)
  else if bool_decide (field = "uint_contents") then Some (0, 2 ^ 32)
  else if bool_decide (field = "int64_contents") then Some (- 2 ^ 63, 2 ^ 63)
  else if bool_decide (field = "uint64_contents") then Some (0, 2 ^ 64)
  else None.

(** [field[:] = elems]: the elements are stored, unless one of them is out
    of the field's range; the first such value is reported. *)
Definition slice_assign (field : string) (elems : list Z) : Py.result (list Z) :=
  match field_bounds field with
  | None => Py.Return elems
  | Some (lo, hi) =>
      match List.find (fun v => (v <? lo) || (hi <=? v)) elems with
      | Some v => Py.Raise (Py.ValueError ("Value out of range: " +:+ pretty v))
      | None => Py.Return elems
      end
  end.

Definition _default_grpc_address : string := "127.0.0.1:8001".

(** [np.array(data, dtype=dt)]: an array of that element type already is
    copied as it is, anything else goes through numpy's conversion. *)
Definition np_array (w : world) (data : value) (dt : dtype) : Py.result ndarray :=
  match data with
  | VArray a =>
      if decide (dtype_type (nd_dtype a) = dtype_type dt) then Py.Return a
      else np_convert w data dt
  | _ => np_convert w data dt
  end.

(** One turn of the loop: [np.frombuffer] on the raw buffer, then
    [np.resize] to the shape the response gives. *)
Definition decode_output (dt : dtype) (buf : list Byte.byte) (shape : list Z)
    : Py.result ndarray :=
  a ← frombuffer buf dt;
  resize a shape.

(** The loop over [response.outputs]. *)
Fixpoint decode_outputs (dt : dtype) (outs : list InferOutputTensor)
    (raw : list (list Byte.byte)) (index : nat) (output_results : list ndarray)
    : Py.result (list ndarray * nat) :=
  match outs with
  | [] => Py.Return (output_results, index)
  | output :: rest =>
      let shape := o_shape output in
      buf ← match raw !! index with
            | Some b => Py.Return b
            | None => Py.Raise (Py.IndexError "list index out of range")
            end;
      a ← decode_output dt buf shape;
      decode_outputs dt rest raw (S index) (output_results ++ [a])
  end.

(** [self._server_config.get("triton_grpc_server") or self._default_grpc_address]. *)
Definition triton_server_address (cs : class_state) : string :=
  or_str (cls_server_config cs !! "triton_grpc_server") _default_grpc_address.

(** The request [process] builds, up to the point where it is sent. *)
Definition build_request (cs : class_state) (w : world)
    (self : BasePreprocessRequest) (data : value) : io ModelInferRequest :=
  let triton_server_address := triton_server_address cs in
  match triton_server_address with
  | EmptyString => raise (Py.ValueError "External Triton gRPC server is not configured!")
  | _ =>
    _ ← try_except
          (call (EvInsecureChannel triton_server_address)
                (insecure_channel w triton_server_address))
          (fun ex =>
             raise (Py.ValueError
                      (Py.format "External Triton gRPC server misconfigured [{}]: {}"
                                 [triton_server_address; Py.str ex])));
    let ep := model_endpoint self in
    let name := strip "/" (Py.format "{}/{}" [serving_url ep; version ep]) in
    input_data ← lift (np_array w data (input_type ep));
    let input_dtype := dtype_type (input_type ep) in
    datatype ← lift (np_to_triton_dtype w input_dtype);
    match dict_get _content_lookup input_dtype with
    | None =>
        raise (Py.ValueError
                 (Py.format "Input type nt supported {}" [type_repr input_dtype]))
    | Some input_func =>
        contents ← lift (slice_assign input_func (nd_data (flatten input_data)));
        let input0 :=
          {| in_name := input_name ep; in_datatype := datatype;
             in_shape := input_size ep;
             in_contents := <[input_func := contents]> ∅ |} in
        ret {| model_name := name; model_version := "1";
               inputs := [input0];
               outputs := [ {| out_name := output_name ep |} ] |}
    end
  end.

(** What [process] makes of the response. *)
Definition decode_response (self : BasePreprocessRequest)
    (response : ModelInferResponse) : Py.result value :=
  '(output_results, index) ←
    decode_outputs (output_type (model_endpoint self)) (resp_outputs response)
                   (raw_output_contents response) 0 [];
  match index, output_results with
  | 1%nat, a :: _ => Py.Return (VArray a)
  | 1%nat, [] => Py.Raise (Py.IndexError "list index out of range")
  | _, _ => Py.Return (VList (map VArray output_results))
  end.

Definition triton_process (cs : class_state) (w : world)
    (self : BasePreprocessRequest) (data : value)
    (collect_custom_statistics_fn : value) : io value :=
  match plugin_with self "process" with
  | Some p => call_method cs p "process" [data; collect_custom_statistics_fn]
  | None =>
      request ← build_request cs w self data;
      response ← call (EvModelInfer request "Gzip" (self_timeout cs self))
                      (ModelInfer w request);
      lift (decode_response self response)
  end.

(** The requests a trace shows were sent to the tensor server. *)
Definition sent_requests (t : list event) : list ModelInferRequest :=
  omap (fun ev => match ev with EvModelInfer r _ _ => Some r | _ => None end) t.

(** The calls to [get_local_copy] a trace shows, as (extract_archive,
    force_download). *)
Definition local_copies (t : list event) : list (option bool * bool) :=
  omap (fun ev => match ev with EvGetLocalCopy _ x f => Some (x, f) | _ => None end) t.

(** The timeouts of the outbound calls a trace shows. *)
Definition call_timeouts (t : list event) : list (option Z) :=
  omap (fun ev =>
          match ev with
          | EvPost _ _ timeout | EvModelInfer _ _ timeout => Some timeout
          | _ => None
          end) t.

End Serving.

(** ** Sample endpoints, collaborators and plugins *)

Module Examples.
Import Numpy Serving.

Local Open Scope Z_scope.

Definition endpoint_f32 : ModelEndpoint :=
  {| serving_url := "test_model"; version := "1"; model_id := "m1";
     preprocess_artifact := None;
     input_name := "input0"; input_type := np_float32; input_size := [2; 3];
     output_name := "output0"; output_type := np_float32 |}.

(** The same endpoint with preprocessing code attached. *)
Definition endpoint_py : ModelEndpoint :=
  {| serving_url := "test_model"; version := "1"; model_id := "m1";
     preprocess_artifact := Some "py_code_test_model";
     input_name := "input0"; input_type := np_float32; input_size := [2; 3];
     output_name := "output0"; output_type := np_float32 |}.

(** An endpoint whose input element type the table has no key for. *)
Definition endpoint_i16 : ModelEndpoint :=
  {| serving_url := "test_model"; version := "1"; model_id := "m1";
     preprocess_artifact := None;
     input_name := "input0"; input_type := np_int16; input_size := [2; 3];
     output_name := "output0"; output_type := np_float32 |}.

(** [[1, 2, 3], [4, 5, 6]] as float32, by bit pattern. *)
Definition array_2x3 : ndarray :=
  {| nd_dtype := np_float32; nd_shape := [2; 3];
     nd_data := [1065353216; 1073741824; 1077936128;
                 1082130432; 1084227584; 1086324736] |}.

Definition array_i16 : ndarray :=
  {| nd_dtype := np_int16; nd_shape := [2]; nd_data := [7; -7] |}.

Definition triton_dtype_name (dt : dtype) : Py.result string :=
  match dt with
  | np_bool | np_bool_ => Py.Return "BOOL"
  | np_uint8 => Py.Return "UINT8"
  | np_uint16 => Py.Return "UINT16"
  | np_uint32 => Py.Return "UINT32"
  | np_uint64 => Py.Return "UINT64"
  | np_int8 => Py.Return "INT8"
  | np_int16 => Py.Return "INT16"
  | np_int32 => Py.Return "INT32"
  | np_int64 | np_int => Py.Return "INT64"
  | np_float16 => Py.Return "FP16"
  | np_float32 => Py.Return "FP32"
  | np_float64 => Py.Return "FP64"
  | np_complex64 | np_complex128 =>
      Py.Raise (Py.TypeError "datatype: expected a string")
  end.

(** A server that answers with the first input, shaped as the request
    says, under the name asked for. *)
Definition echo_server (request : ModelInferRequest) : Py.result ModelInferResponse :=
  match inputs request, outputs request with
  | [input0], [output0] =>
      let elems := concat (map_to_list (in_contents input0)).*2 in
      Py.Return
        {| resp_outputs := [ {| o_name := out_name output0; o_shape := in_shape input0 |} ];
           raw_output_contents := [ concat (map (to_bytes np_float32) elems) ] |}
  | _, _ => Py.Raise (Py.OtherError "InferenceServerException" "bad request")
  end.

(** A server with two outputs, whatever the request. *)
Definition two_output_server (request : ModelInferRequest)
  : Py.result ModelInferResponse :=
  Py.Return
    {| resp_outputs := [ {| o_name := "b"; o_shape := [1] |};
                         {| o_name := "a"; o_shape := [2] |} ];
       raw_output_contents :=
         [ to_bytes np_float32 1065353216;
           (to_bytes np_float32 1073741824 ++ to_bytes np_float32 1077936128)%list ] |}.

(** A plugin class with a [load] method only. *)
Definition loader_class : pyclass :=
  {| cls_dict := {[ "load" := Method (fun _ _ => ret (VObject "model")) ]};
     cls_new := ret ∅ |}.

Definition code_artifact (file_hash : string) : Artifact :=
  {| hash := Some file_hash;
     get_local_copy := fun extract_archive _ =>
       match extract_archive with
       | Some true => Py.Return "/cache/py_code_test_model"
       | _ => Py.Return "/cache/py_code_test_model.zip"
       end |}.

Definition task_with (file_hash : string) : Task :=
  {| id := "serving_task"; artifacts := {[ "py_code_test_model" := code_artifact file_hash ]} |}.

(** Everything answers. *)
Definition world_up : world :=
  {| environ_serving_timeout := None;
     sha256sum := fun _ => Py.Return (Some "abc");
     exec_module := fun _ => Py.Return {[ "Preprocess" := loader_class ]};
     model_get_local_copy := fun _ => Py.Return "/models/m1";
     request_post := fun _ _ _ =>
       Py.Return {| ok := true; json := Py.Return (VDict []) |};
     insecure_channel := fun _ => Py.Return tt;
     ModelInfer := echo_server;
     np_to_triton_dtype := triton_dtype_name;
     np_convert := fun _ _ => Py.Raise (Py.TypeError "cannot convert") |}.

Definition with_post (w : world)
    (post : string -> value -> option Z -> Py.result Response) : world :=
  {| environ_serving_timeout := environ_serving_timeout w;
     sha256sum := sha256sum w; exec_module := exec_module w;
     model_get_local_copy := model_get_local_copy w;
     request_post := post;
     insecure_channel := insecure_channel w; ModelInfer := ModelInfer w;
     np_to_triton_dtype := np_to_triton_dtype w; np_convert := np_convert w |}.

Definition with_server (w : world)
    (server : ModelInferRequest -> Py.result ModelInferResponse) : world :=
  {| environ_serving_timeout := environ_serving_timeout w;
     sha256sum := sha256sum w; exec_module := exec_module w;
     model_get_local_copy := model_get_local_copy w;
     request_post := request_post w;
     insecure_channel := insecure_channel w; ModelInfer := server;
     np_to_triton_dtype := np_to_triton_dtype w; np_convert := np_convert w |}.

Definition with_exec_module (w : world)
    (exec : string -> Py.result (gmap string pyclass)) : world :=
  {| environ_serving_timeout := environ_serving_timeout w;
     sha256sum := sha256sum w; exec_module := exec;
     model_get_local_copy := model_get_local_copy w;
     request_post := request_post w;
     insecure_channel := insecure_channel w; ModelInfer := ModelInfer w;
     np_to_triton_dtype := np_to_triton_dtype w; np_convert := np_convert w |}.

Definition with_environ (w : world) (serving_timeout : option Z) : world :=
  {| environ_serving_timeout := serving_timeout;
     sha256sum := sha256sum w; exec_module := exec_module w;
     model_get_local_copy := model_get_local_copy w;
     request_post := request_post w;
     insecure_channel := insecure_channel w; ModelInfer := ModelInfer w;
     np_to_triton_dtype := np_to_triton_dtype w; np_convert := np_convert w |}.

(** The gateway cannot be reached. *)
Definition world_offline : world :=
  with_post world_up
    (fun _ _ _ => Py.Raise (Py.OtherError "ConnectionError" "connection refused")).

(** The gateway answers 404. *)
Definition world_not_found : world :=
  with_post world_up
    (fun _ _ _ => Py.Return {| ok := false; json := Py.Return (VDict []) |}).

(** The preprocessing file does not parse. *)
Definition world_bad_code : world :=
  with_exec_module world_up
    (fun _ => Py.Raise (Py.OtherError "SyntaxError" "invalid syntax")).

(** A dispatcher without plugin. *)
Definition plain (ep : ModelEndpoint) : BasePreprocessRequest :=
  {| model_endpoint := ep; _preprocess := None; _model := VNone;
     _timeout := Some 480 |}.

(** A dispatcher whose plugin has [load] and nothing else. *)
Definition with_loader (ep : ModelEndpoint) : BasePreprocessRequest :=
  {| model_endpoint := ep;
     _preprocess := Some {| class_attrs := cls_dict loader_class; inst_attrs := ∅ |};
     _model := VObject "model"; _timeout := Some 480 |}.

End Examples.

(** ** Three statements as the specification words them

    Each is shown further down not to hold of the code as it stands. *)

Module AsWorded.
Import Numpy Serving.

Local Open Scope Z_scope.

(** C6 as it is worded: whenever the POST fails on the network or comes
    back not ok, the callback returns [None]. *)
Definition send_request_swallows_failures (w : world) (cs : class_state)
    (endpoint : string) (version : option string) (data : value) : Prop :=
  let posted := request_post w (request_url cs endpoint version) data (cls_timeout cs) in
  (exists e, posted = Py.Raise e) \/ (exists r, posted = Py.Return r /\ ok r = false) ->
  outcome (_preprocess_send_request w cs endpoint version data) = Py.Return VNone.

(** C4 as it is worded: once the hash of the first local copy is the one
    recorded on the artifact, that path is the one used and no further
    call to [get_local_copy] is made. *)
Definition no_fetch_after_hash_match (w : world) (name : string) (task : Task) : Prop :=
  forall a path,
    artifacts task !! name = Some a ->
    get_local_copy a None false = Py.Return path ->
    sha256sum w path = Py.Return (hash a) ->
    local_preprocess_path w name task
    = IO (Py.Return path) [EvGetLocalCopy name None false].

(** C10 as it is worded: the output decodes, to the shape the server
    declared, and every element of the result is the element of the buffer
    at the same position counted round the buffer. *)
Definition filled_by_repetition (dt : dtype) (buf : list Byte.byte) (shape : list Z)
  : Prop :=
  exists a, decode_output dt buf shape = Py.Return a
    /\ nd_shape a = shape
    /\ forall i : nat, (i < length (nd_data a))%nat ->
         nd_data a !! i
         = buffer_elements dt buf !! (i mod length (buffer_elements dt buf))%nat.

End AsWorded.

(** ** Module loading and the other adapters *)

Module Adapters.
Import Numpy Serving Registry.

Local Open Scope Z_scope.

(** The import system and the scoring libraries, as functions of their
    arguments. *)
Record libraries := {
  (** [issubclass(cls, base)] for two different exception classes, by name *)
  inherits : string -> string -> bool;
  (** [importlib.import_module(m)], and the [import m] statements *)
  import_module : string -> Py.result unit;
  (** [joblib.load(filename=...)] *)
  joblib_load : string -> Py.result value;
  (** [xgboost.Booster()] *)
  xgboost_Booster : Py.result value;
  (** the booster once [load_model(file)] has run on it *)
  Booster_load_model : value -> string -> Py.result value;
  (** [lightgbm.Booster(model_file=...)] *)
  lightgbm_Booster : string -> Py.result value;
  (** [model.predict(data)] on a model object *)
  model_predict : value -> value -> Py.result value
}.

(** [isinstance(e, base)] for an exception of class [cls]. *)
Definition instance_of (libs : libraries) (cls base : string) : bool :=
  bool_decide (cls = base) || inherits libs cls base.

(** What [except (ImportError, TypeError)] catches: an instance of one of
    the two classes or of any class derived from them.  [ValueError],
    [AttributeError] and [IndexError] are derived from neither. *)
Definition import_or_type_error (libs : libraries) (e : Py.exn) : bool :=
  match e with
  | Py.TypeError _ => true
  | Py.OtherError cls _ =>
      instance_of libs cls "ImportError" || instance_of libs cls "TypeError"
  | _ => false
  end.

(** The loop of [load_modules] over the module names. *)
Fixpoint load_each (libs : libraries) (names : list string) : Py.result unit :=
  match names with
  | [] => Py.Return tt
  | m :: rest =>
      match import_module libs m with
      | Py.Return _ => load_each libs rest
      | Py.Raise e =>
          if import_or_type_error libs e then load_each libs rest else Py.Raise e
      end
  end.

(** [BasePreprocessRequest.load_modules()]. *)
Definition load_modules (libs : libraries) (r : registry) : Py.result unit :=
  load_each libs (elements (preprocessing_modules r)).

Definition with_model (self : BasePreprocessRequest) (m : value) : BasePreprocessRequest :=
  {| model_endpoint := model_endpoint self; _preprocess := _preprocess self;
     _model := m; _timeout := _timeout self |}.

(** [self._model.predict(data)]. *)
Definition predict (libs : libraries) (self : BasePreprocessRequest) (data : value)
  : Py.result value :=
  match _model self with
  | VNone => Py.Raise (Py.AttributeError "'NoneType' object has no attribute 'predict'")
  | m => model_predict libs m data
  end.

(** [SKLearnPreprocessRequest.__init__]. *)
Definition sklearn_init (cs : class_state) (w : world) (libs : libraries)
    (endpoint : ModelEndpoint) (task : option Task) : io BasePreprocessRequest :=
  self ← __init__ cs w endpoint task;
  match _model self with
  | VNone =>
      _ ← lift (import_module libs "joblib");
      file ← _get_local_model_file w self;
      m ← lift (joblib_load libs file);
      ret (with_model self m)
  | _ => ret self
  end.

(** [XGBoostPreprocessRequest.__init__]. *)
Definition xgboost_init (cs : class_state) (w : world) (libs : libraries)
    (endpoint : ModelEndpoint) (task : option Task) : io BasePreprocessRequest :=
  self ← __init__ cs w endpoint task;
  match _model self with
  | VNone =>
      _ ← lift (import_module libs "xgboost");
      booster ← lift (xgboost_Booster libs);
      file ← _get_local_model_file w self;
      booster ← lift (Booster_load_model libs booster file);
      ret (with_model self booster)
  | _ => ret self
  end.

(** [LightGBMPreprocessRequest.__init__]. *)
Definition lightgbm_init (cs : class_state) (w : world) (libs : libraries)
    (endpoint : ModelEndpoint) (task : option Task) : io BasePreprocessRequest :=
  self ← __init__ cs w endpoint task;
  match _model self with
  | VNone =>
      _ ← lift (import_module libs "lightgbm");
      file ← _get_local_model_file w self;
      m ← lift (lightgbm_Booster libs file);
      ret (with_model self m)
  | _ => ret self
  end.

(** [process] of the three scoring adapters. *)
Definition scoring_process (libs : libraries) (self : BasePreprocessRequest)
    (data : value) (collect_custom_statistics_fn : value) : io value :=
  lift (predict libs self data).

(** [TritonPreprocessRequest.__init__]: the base constructor, then the three
    imports, each made while the attribute read through [self] is [None]
    (the class attributes are never assigned, so for every instance). *)
Definition triton_init (cs : class_state) (w : world) (libs : libraries)
    (endpoint : ModelEndpoint) (task : option Task) : io BasePreprocessRequest :=
  self ← __init__ cs w endpoint task;
  _ ← lift (import_module libs "grpc");
  _ ← lift (import_module libs "tritonclient.utils");
  _ ← lift (import_module libs "tritonclient.grpc");
  ret self.

(** Sample libraries: everything is installed. *)
Definition libraries_up : libraries :=
  {| inherits := fun cls base =>
       bool_decide (base = "ImportError")
       && (bool_decide (cls = "ModuleNotFoundError") || bool_decide (cls = "ZipImportError"));
     import_module := fun _ => Py.Return tt;
     joblib_load := fun file => Py.Return (VObject ("joblib:" +:+ file));
     xgboost_Booster := Py.Return (VObject "booster");
     Booster_load_model := fun _ file => Py.Return (VObject ("xgboost:" +:+ file));
     lightgbm_Booster := fun file => Py.Return (VObject ("lightgbm:" +:+ file));
     model_predict := fun _ data => Py.Return data |}.

(** Sample libraries: only the named modules can be imported, one module
    breaks with an error of its own. *)
Definition libraries_partial (installed : list string) (broken : string) : libraries :=
  {| inherits := inherits libraries_up;
     import_module := fun m =>
       if bool_decide (m = broken) then Py.Raise (Py.OtherError "RuntimeError" "boom")
       else if bool_decide (m ∈ installed) then Py.Return tt
       else Py.Raise (Py.OtherError "ModuleNotFoundError" m);
     joblib_load := joblib_load libraries_up;
     xgboost_Booster := xgboost_Booster libraries_up;
     Booster_load_model := Booster_load_model libraries_up;
     lightgbm_Booster := lightgbm_Booster libraries_up;
     model_predict := model_predict libraries_up |}.

End Adapters.

(** ** Further sample collaborators *)

Module Samples.
Import Numpy Serving Examples.

Local Open Scope Z_scope.

(** The tensor server cannot be reached when the channel is opened. *)
Definition world_no_channel : world :=
  {| environ_serving_timeout := None;
     sha256sum := sha256sum world_up; exec_module := exec_module world_up;
     model_get_local_copy := model_get_local_copy world_up;
     request_post := request_post world_up;
     insecure_channel := fun _ => Py.Raise (Py.OtherError "RpcError" "no route");
     ModelInfer := ModelInfer world_up;
     np_to_triton_dtype := np_to_triton_dtype world_up;
     np_convert := np_convert world_up |}.

(** The tensor server does not answer in time. *)
Definition world_server_late : world :=
  with_server world_up (fun _ => Py.Raise (Py.OtherError "RpcError" "deadline exceeded")).

(** A dispatcher whose plugin has a plain value under [preprocess]. *)
Definition with_value_attribute : BasePreprocessRequest :=
  {| model_endpoint := endpoint_f32;
     _preprocess := Some {| class_attrs := ∅;
                            inst_attrs := {[ "preprocess" := Attr (VInt 3) ]} |};
     _model := VNone; _timeout := Some 480 |}.

(** An endpoint with no version. *)
Definition endpoint_unversioned : ModelEndpoint :=
  {| serving_url := "/test_model/"; version := ""; model_id := "m1";
     preprocess_artifact := None;
     input_name := "input0"; input_type := np_float32; input_size := [1; 1];
     output_name := "output0"; output_type := np_float32 |}.

Definition endpoint_of (t : dtype) : ModelEndpoint :=
  {| serving_url := "test_model"; version := "1"; model_id := "m1";
     preprocess_artifact := None;
     input_name := "input0"; input_type := t; input_size := [2];
     output_name := "output0"; output_type := t |}.

(** [np.array([True, False])]. *)
Definition array_bool : ndarray :=
  {| nd_dtype := np_bool_; nd_shape := [2]; nd_data := [1; 0] |}.

(** [np.array([1, 2], dtype=np.uint64)]. *)
Definition array_u64 : ndarray :=
  {| nd_dtype := np_uint64; nd_shape := [2]; nd_data := [1; 2] |}.

(** [np.array([1, 2**40], dtype=np.uint64)]. *)
Definition array_u64_wide : ndarray :=
  {| nd_dtype := np_uint64; nd_shape := [2]; nd_data := [1; 2 ^ 40] |}.

(** [np.array([3, -4])], of the default integer type. *)
Definition array_i64 : ndarray :=
  {| nd_dtype := np_int64; nd_shape := [2]; nd_data := [3; -4] |}.

(** The contents fields of the requests a trace shows were sent: per
    request and input, the populated fields with their elements. *)
Definition sent_contents (t : list event) : list (list (list (string * list Z))) :=
  map (fun r => map (fun i => map_to_list (in_contents i)) (inputs r)) (sent_requests t).

End Samples.

(** ** How a string begins and ends *)

Module Text.
Import Serving.

(** The string begins with [c]. *)
Definition starts_with (c : ascii) (s : string) : Prop :=
  match s with
  | String a _ => a = c
  | EmptyString => False
  end.

(** The string ends with [c]. *)
Definition ends_with (c : ascii) (s : string) : Prop :=
  starts_with c (rev_string s "").

(** [k] times the character [c]. *)
Fixpoint run_of (c : ascii) (k : nat) : string :=
  match k with
  | O => EmptyString
  | S k' => String c (run_of c k')
  end.

End Text.

(** ** Registry: theorems *)

Module RegistryFacts.
Import Registry.

Lemma decorate_lookup reg r :
  preprocessing_lookup (decorate reg r)
  = <[reg_name reg := snd reg]> (preprocessing_lookup r).
Proof.
  destruct reg as [[name modules] cls]. unfold decorate, register_engine, reg_name.
  destruct modules as [[|m ms]|]; reflexivity.
Qed.

Lemma registrations_lookup_other regs : forall r name,
  name ∉ map reg_name regs ->
  preprocessing_lookup (registrations regs r) !! name = preprocessing_lookup r !! name.
Proof.
  induction regs as [|reg regs IH]; intros r name Hnot; [reflexivity|].
  cbn [registrations fold_left]. fold (registrations regs (decorate reg r)).
  rewrite IH.
  - rewrite decorate_lookup. apply lookup_insert_ne.
    intros Heq. apply Hnot. cbn [map]. rewrite elem_of_cons. by left.
  - intros Hin. apply Hnot. cbn [map]. rewrite elem_of_cons. by right.
Qed.

Lemma validate_iff_resolve r name :
  is_Some (get_engine_cls r name) <-> validate_engine_type r name = true.
Proof.
  unfold get_engine_cls, validate_engine_type.
  rewrite bool_decide_eq_true. by rewrite elem_of_dom.
Qed.

(** C9: on the registry any run of registrations leaves, [get_engine_cls]
    (resolve) gives a constructor exactly when [validate_engine_type]
    (isSupported) answers true; a name no registration used is reported
    unsupported and resolves to no constructor. *)
Theorem resolve_iff_supported
    (regs : list (string * option (list string) * engine_cls)) (name : string) :
  let r := registrations regs empty in
  (is_Some (get_engine_cls r name) <-> validate_engine_type r name = true)
  /\ (name ∉ map reg_name regs ->
      validate_engine_type r name = false /\ get_engine_cls r name = None).
Proof.
  intros r. split; [apply validate_iff_resolve|].
  intros Hnot.
  assert (Hnone : get_engine_cls r name = None).
  { unfold get_engine_cls, r. rewrite registrations_lookup_other by done.
    apply lookup_empty. }
  split; [|exact Hnone].
  destruct (validate_engine_type r name) eqn:Hv; [|reflexivity].
  apply validate_iff_resolve in Hv. rewrite Hnone in Hv. by destruct Hv.
Qed.

Lemma resolve_iff_supported_witness :
  ("onnx" ∉ map reg_name module_registrations)
  /\ validate_engine_type module_registry "onnx" = false
  /\ get_engine_cls module_registry "onnx" = None.
Proof.
  assert (H : "onnx" ∉ map reg_name module_registrations).
  { cbn. rewrite !elem_of_cons, elem_of_nil. intros Hin.
    repeat destruct Hin as [Hin|Hin]; try discriminate Hin; exact Hin. }
  split; [exact H|].
  exact (proj2 (resolve_iff_supported module_registrations "onnx") H).
Defined.

Example triton_registered :
  get_engine_cls module_registry "triton" = Some TritonPreprocessRequest
  /\ validate_engine_type module_registry "triton" = true.
Proof. split; vm_compute; reflexivity. Qed.

End RegistryFacts.

(** ** Tensor codec: theorems *)

Module NumpyFacts.
Import Numpy.

Local Open Scope Z_scope.

Lemma Z_of_byte_of_Z z : 0 <= z < 256 -> Z_of_byte (byte_of_Z z) = z.
Proof.
  intros Hz. unfold Z_of_byte, byte_of_Z.
  destruct (Byte.of_N (Z.to_N z)) as [b|] eqn:Hb.
  - apply Byte.to_of_N in Hb. rewrite Hb. lia.
  - apply Byte.of_N_None_iff in Hb. lia.
Qed.

Lemma Z_of_byte_range b : 0 <= Z_of_byte b < 256.
Proof.
  unfold Z_of_byte. pose proof (Byte.to_N_bounded b). lia.
Qed.

Lemma length_le_encode w : forall z, length (le_encode w z) = w.
Proof. induction w as [|w IH]; intros z; cbn; [reflexivity|]. by rewrite IH. Qed.

Lemma le_decode_encode w : forall z,
  0 <= z < 256 ^ Z.of_nat w -> le_decode (le_encode w z) = z.
Proof.
  induction w as [|w IH]; intros z Hz.
  - cbn in *. lia.
  - cbn [le_encode le_decode].
    rewrite Z_of_byte_of_Z by (apply Z.mod_pos_bound; lia).
    rewrite IH.
    + pose proof (Z.div_mod z 256). lia.
    + rewrite Nat2Z.inj_succ, Z.pow_succ_r in Hz by lia.
      split; [apply Z.div_pos; lia|].
      apply Z.div_lt_upper_bound; lia.
Qed.

Lemma pow_bits dt : 2 ^ bits dt = 256 ^ Z.of_nat (itemsize dt).
Proof.
  unfold bits. rewrite Z.pow_mul_r by lia. reflexivity.
Qed.

Lemma bits_pos dt : 0 < bits dt.
Proof. unfold bits. destruct dt; cbn; lia. Qed.

Lemma itemsize_pos dt : (0 < itemsize dt)%nat.
Proof. destruct dt; cbn; lia. Qed.

Lemma length_to_bytes dt v : length (to_bytes dt v) = itemsize dt.
Proof. apply length_le_encode. Qed.

(** Reading back the bytes of an element gives the element. *)
Lemma of_bytes_to_bytes dt v : in_range dt v -> of_bytes dt (to_bytes dt v) = v.
Proof.
  intros Hv. unfold of_bytes, to_bytes.
  assert (Hpow : 0 < 2 ^ bits dt) by (apply Z.pow_pos_nonneg; [lia|pose proof (bits_pos dt); lia]).
  rewrite le_decode_encode
    by (rewrite <- pow_bits; apply Z.mod_pos_bound; exact Hpow).
  assert (Hhalf : 2 ^ bits dt = 2 * 2 ^ (bits dt - 1)).
  { rewrite <- Z.pow_succ_r by (pose proof (bits_pos dt); lia).
    f_equal. lia. }
  unfold in_range in Hv. destruct (dtype_kind dt).
  - destruct (Z_lt_dec v 0) as [Hneg|Hnn].
    + assert (Hm : v mod 2 ^ bits dt = v + 2 ^ bits dt).
      { symmetry. apply Z.mod_unique with (q := -1); lia. }
      rewrite Hm. destruct (Z.ltb_spec (v + 2 ^ bits dt) (2 ^ (bits dt - 1))); lia.
    + rewrite Z.mod_small by lia.
      destruct (Z.ltb_spec v (2 ^ (bits dt - 1))); lia.
  - apply Z.mod_small; lia.
  - assert (Hone : 1 < 2 ^ bits dt).
    { apply Z.pow_gt_1; [lia|apply bits_pos]. }
    rewrite Z.mod_small by lia.
    destruct (Z.eqb_spec v 0); lia.
  - apply Z.mod_small; lia.
  - apply Z.mod_small; lia.
Qed.

Lemma chunks_concat {A B} (f : A -> list B) (w : nat) (l : list A) :
  (forall x, length (f x) = w) ->
  chunks w (length l) (concat (map f l)) = map f l.
Proof.
  intros Hw. induction l as [|x l IH]; [reflexivity|].
  cbn [map concat length chunks].
  rewrite take_app_length' by (symmetry; apply Hw).
  rewrite drop_app_length' by (symmetry; apply Hw).
  by rewrite IH.
Qed.

Lemma length_concat_const {A B} (f : A -> list B) (w : nat) (l : list A) :
  (forall x, length (f x) = w) ->
  length (concat (map f l)) = (length l * w)%nat.
Proof.
  intros Hw. induction l as [|x l IH]; [reflexivity|].
  cbn [map concat length]. rewrite length_app, Hw, IH. lia.
Qed.

Lemma length_tobytes a :
  length (tobytes a) = (length (nd_data a) * itemsize (nd_dtype a))%nat.
Proof. apply length_concat_const, length_to_bytes. Qed.

(** [frombuffer] on the bytes of an array gives its flattened copy. *)
Lemma frombuffer_tobytes a :
  Forall (in_range (nd_dtype a)) (nd_data a) ->
  frombuffer (tobytes a) (nd_dtype a) = Py.Return (flatten a).
Proof.
  intros Hr. unfold frombuffer. rewrite length_tobytes.
  pose proof (itemsize_pos (nd_dtype a)) as Hpos.
  rewrite Nat.Div0.mod_mul. cbn [Nat.eqb].
  unfold buffer_elements. rewrite length_tobytes, Nat.div_mul by lia.
  unfold tobytes. rewrite chunks_concat by apply length_to_bytes.
  rewrite map_map. unfold flatten. do 2 f_equal.
  induction Hr as [|v vs Hv _ IH]; [reflexivity|].
  cbn [map]. by rewrite of_bytes_to_bytes, IH.
Qed.

Lemma existsb_negative_false shape :
  Forall (fun d => 0 <= d) shape -> existsb (fun d => d <? 0) shape = false.
Proof.
  induction 1 as [|d ds Hd _ IH]; [reflexivity|].
  cbn. rewrite IH. destruct (Z.ltb_spec d 0); [lia|reflexivity].
Qed.

Lemma existsb_negative_true shape :
  ~ Forall (fun d => 0 <= d) shape -> existsb (fun d => d <? 0) shape = true.
Proof.
  intros Hn. destruct (existsb _ shape) eqn:He; [reflexivity|].
  exfalso. apply Hn. apply Forall_forall. intros d Hd.
  destruct (Z.ltb_spec d 0) as [Hlt|]; [|lia].
  assert (existsb (fun d => d <? 0) shape = true); [|congruence].
  apply existsb_exists. exists d. split; [by apply list_elem_of_In|].
  by apply Z.ltb_lt.
Qed.

(** [resize] of the flattened copy to the array's own shape gives the
    array back. *)
Lemma resize_flatten a : wf a -> resize (flatten a) (nd_shape a) = Py.Return a.
Proof.
  intros (Hshape & Hlen & _). unfold resize.
  rewrite existsb_negative_false by exact Hshape.
  cbn [flatten nd_data nd_dtype].
  rewrite <- Hlen, Nat2Z.id.
  destruct a as [dt shape data]; cbn [Numpy.nd_data Numpy.nd_shape Numpy.nd_dtype] in *.
  destruct data as [|v data]; [reflexivity|].
  set (l := v :: data). assert (Hl : (0 < length l)%nat) by (cbn; lia).
  replace ((length l =? 0)%nat) with false by (symmetry; apply Nat.eqb_neq; lia).
  cbn [orb].
  replace ((length l + length l - 1) / length l)%nat with 1%nat.
  - cbn [repeat concat]. rewrite app_nil_r, firstn_all. reflexivity.
  - apply Nat.div_unique with (r := (length l - 1)%nat); lia.
Qed.

Lemma prod_shape_nonneg shape :
  Forall (fun d => 0 <= d) shape -> 0 <= prod_shape shape.
Proof.
  induction 1 as [|d ds Hd _ IH]; cbn; [lia|]. apply Z.mul_nonneg_nonneg; assumption.
Qed.

(** Reading position [i] of a list written out [k] times in a row. *)
Lemma lookup_concat_repeat {A} (l : list A) (k : nat) : forall i : nat,
  (i < k * length l)%nat ->
  concat (repeat l k) !! i = l !! (i mod length l)%nat.
Proof.
  induction k as [|k IH]; intros i Hi; [lia|].
  cbn [repeat concat].
  destruct (Nat.lt_ge_cases i (length l)) as [Hlt|Hge].
  - rewrite lookup_app_l by exact Hlt. by rewrite Nat.mod_small.
  - rewrite lookup_app_r by exact Hge.
    rewrite IH by lia. f_equal.
    replace i with ((i - length l) + 1 * length l)%nat at 2 by lia.
    rewrite Nat.Div0.mod_add. reflexivity.
Qed.

Lemma length_concat_repeat {A} (l : list A) (k : nat) :
  length (concat (repeat l k)) = (k * length l)%nat.
Proof.
  induction k as [|k IH]; [reflexivity|].
  cbn [repeat concat]. rewrite length_app, IH. lia.
Qed.

Lemma lookup_repeat_zero (n i : nat) : (i < n)%nat -> repeat 0 n !! i = Some 0.
Proof.
  revert i. induction n as [|n IH]; intros i Hi; [lia|].
  destruct i as [|i]; [reflexivity|]. cbn. apply IH. lia.
Qed.

(** What [resize] gives for a shape without a negative entry. *)
Lemma resize_spec a shape :
  Forall (fun d => 0 <= d) shape ->
  exists r, resize a shape = Py.Return r
    /\ nd_dtype r = nd_dtype a
    /\ nd_shape r = shape
    /\ Z.of_nat (length (nd_data r)) = prod_shape shape
    /\ forall i : nat, (i < length (nd_data r))%nat ->
         nd_data r !! i =
           match nd_data a with
           | [] => Some 0
           | _ :: _ => nd_data a !! (i mod length (nd_data a))%nat
           end.
Proof.
  intros Hshape. unfold resize.
  rewrite existsb_negative_false by exact Hshape.
  pose proof (prod_shape_nonneg shape Hshape) as Hnn.
  set (n := Z.to_nat (prod_shape shape)).
  destruct (nd_data a) as [|v data] eqn:Hdata.
  - cbn [length Nat.eqb orb]. eexists. split; [reflexivity|].
    cbn [Numpy.nd_dtype Numpy.nd_shape Numpy.nd_data].
    rewrite repeat_length. repeat split; [lia|].
    intros i Hi. by apply lookup_repeat_zero.
  - set (l := v :: data). assert (Hl : (0 < length l)%nat) by (cbn; lia).
    replace ((length l =? 0)%nat) with false by (symmetry; apply Nat.eqb_neq; lia).
    cbn [orb]. destruct (Nat.eqb_spec n 0) as [Hz|Hnz].
    + eexists. split; [reflexivity|].
      cbn [Numpy.nd_dtype Numpy.nd_shape Numpy.nd_data].
      rewrite repeat_length. repeat split; [lia|].
      intros i Hi. lia.
    + eexists. split; [reflexivity|].
      cbn [Numpy.nd_dtype Numpy.nd_shape Numpy.nd_data].
      set (k := ((n + length l - 1) / length l)%nat).
      assert (Hk : (n <= k * length l)%nat).
      { pose proof (Nat.div_mod (n + length l - 1) (length l) ltac:(lia)) as Hdm.
        pose proof (Nat.mod_upper_bound (n + length l - 1) (length l) ltac:(lia)).
        fold k in Hdm. lia. }
      assert (Hlen : length (take n (concat (repeat l k))) = n).
      { rewrite length_take, length_concat_repeat. lia. }
      rewrite Hlen. repeat split; [unfold n; lia|].
      intros i Hi. rewrite lookup_take_lt by exact Hi.
      apply lookup_concat_repeat. lia.
Qed.

Lemma resize_negative a shape :
  ~ Forall (fun d => 0 <= d) shape ->
  resize a shape
  = Py.Raise (Py.ValueError "all elements of `new_shape` must be non-negative").
Proof.
  intros Hn. unfold resize. by rewrite existsb_negative_true.
Qed.

End NumpyFacts.

(** ** Dispatcher: theorems *)

Module ServingFacts.
Import Numpy Serving Examples AsWorded.

Local Open Scope Z_scope.
Local Open Scope list_scope.

(** *** The monad of traced computations *)

Lemma bind_return {A B} (m : io A) (k : A -> io B) a :
  outcome m = Py.Return a ->
  m ≫= k = IO (outcome (k a)) (trace m ++ trace (k a)).
Proof. intros H. unfold mbind, io_bind, bind. by rewrite H. Qed.

Lemma bind_raise {A B} (m : io A) (k : A -> io B) e :
  outcome m = Py.Raise e -> m ≫= k = IO (Py.Raise e) (trace m).
Proof. intros H. unfold mbind, io_bind, bind. by rewrite H. Qed.

Lemma outcome_bind_raise {A B} (m : io A) (k : A -> io B) e :
  outcome m = Py.Raise e -> outcome (m ≫= k) = Py.Raise e.
Proof. intros H. by rewrite (bind_raise _ _ _ H). Qed.

Lemma outcome_bind_return {A B} (m : io A) (k : A -> io B) a :
  outcome m = Py.Return a -> outcome (m ≫= k) = outcome (k a).
Proof. intros H. by rewrite (bind_return _ _ _ H). Qed.

Lemma trace_bind_return {A B} (m : io A) (k : A -> io B) a :
  outcome m = Py.Return a -> trace (m ≫= k) = trace m ++ trace (k a).
Proof. intros H. by rewrite (bind_return _ _ _ H). Qed.

(** *** Stages without plugin code *)

Lemma plugin_with_none self name :
  _preprocess self = None
  \/ (exists p, _preprocess self = Some p /\ getattr p name = None) ->
  plugin_with self name = None.
Proof.
  unfold plugin_with. intros [H|(p & H & Hget)]; rewrite H; [reflexivity|].
  unfold hasattr. rewrite Hget.
  rewrite bool_decide_eq_false_2; [reflexivity|]. by intros [? ?].
Qed.

(** C5: a dispatcher with no plugin, or with a plugin that has no
    attribute of the stage's name, hands back what it was given: both
    [preprocess] and [postprocess] return their input, and make no call. *)
Theorem stages_default_to_identity
    (cs : class_state) (self : BasePreprocessRequest) (x sink : value) :
  (_preprocess self = None
   \/ (exists p, _preprocess self = Some p /\ getattr p "preprocess" = None) ->
   preprocess cs self x sink = ret x)
  /\ (_preprocess self = None
      \/ (exists p, _preprocess self = Some p /\ getattr p "postprocess" = None) ->
      postprocess cs self x sink = ret x).
Proof.
  split; intros H; apply plugin_with_none in H.
  - unfold preprocess. by rewrite H.
  - unfold postprocess. by rewrite H.
Qed.

Lemma stages_default_to_identity_witness :
  preprocess class_init (plain endpoint_f32) (VDict [("x", VInt 1)]) VNone
  = ret (VDict [("x", VInt 1)])
  /\ postprocess class_init (with_loader endpoint_f32) (VArray array_2x3) (VObject "sink")
     = ret (VArray array_2x3).
Proof.
  split.
  - apply (proj1 (stages_default_to_identity class_init (plain endpoint_f32)
                    (VDict [("x", VInt 1)]) VNone)).
    left. reflexivity.
  - apply (proj2 (stages_default_to_identity class_init (with_loader endpoint_f32)
                    (VArray array_2x3) (VObject "sink"))).
    right. eexists. split; [reflexivity|]. vm_compute. reflexivity.
Defined.

(** *** The callback given to plugin code *)

(** C6, counterexample: with the gateway out of reach the callback raises
    what the HTTP client raised. *)
Lemma send_request_network_error_raises :
  ~ send_request_swallows_failures world_offline class_init "test_model" (Some "1") VNone.
Proof.
  unfold send_request_swallows_failures. intros H.
  assert (Hout : outcome (_preprocess_send_request world_offline class_init
                            "test_model" (Some "1") VNone)
                 = Py.Raise (Py.OtherError "ConnectionError" "connection refused"))
    by (vm_compute; reflexivity).
  rewrite Hout in H. discriminate H.
  left. eexists. vm_compute. reflexivity.
Qed.

(** C6, amended: a response that is not ok makes the callback return
    [None]; an exception raised while the POST is issued leaves the
    callback as it is. *)
Theorem send_request_outcome (w : world) (cs : class_state)
    (endpoint : string) (version : option string) (data : value) :
  let posted := request_post w (request_url cs endpoint version) data (cls_timeout cs) in
  (forall r, posted = Py.Return r -> ok r = false ->
     outcome (_preprocess_send_request w cs endpoint version data) = Py.Return VNone)
  /\ (forall e, posted = Py.Raise e ->
        outcome (_preprocess_send_request w cs endpoint version data) = Py.Raise e).
Proof.
  cbn zeta. unfold _preprocess_send_request. split.
  - intros r Hr Hok. erewrite outcome_bind_return by (cbn; exact Hr).
    by rewrite Hok.
  - intros e He. apply outcome_bind_raise. exact He.
Qed.

Lemma send_request_outcome_witness :
  outcome (_preprocess_send_request world_not_found class_init "test_model" (Some "1") VNone)
  = Py.Return VNone
  /\ outcome (_preprocess_send_request world_offline class_init "test_model" (Some "1") VNone)
     = Py.Raise (Py.OtherError "ConnectionError" "connection refused").
Proof.
  split.
  - apply (proj1 (send_request_outcome world_not_found class_init "test_model" (Some "1") VNone)
             {| ok := false; json := Py.Return (VDict []) |}); reflexivity.
  - apply (proj2 (send_request_outcome world_offline class_init "test_model" (Some "1") VNone)).
    reflexivity.
Defined.

(** *** The timeout of the outbound calls *)

(** Constructing a dispatcher leaves the class attribute as it was, so a
    dispatcher built while it is [None] carries its own value. *)
Lemma new_instance_timeout cs w endpoint :
  cls_timeout cs = None ->
  _timeout (new_instance cs w endpoint) = Some (derive_timeout w).
Proof. intros H. unfold new_instance, self_timeout. cbn. by rewrite H. Qed.

Lemma send_request_timeout w cs endpoint version data :
  call_timeouts (trace (_preprocess_send_request w cs endpoint version data))
  = [cls_timeout cs].
Proof.
  unfold _preprocess_send_request, mbind, io_bind, bind, call. cbn [outcome trace].
  destruct (request_post w _ data (cls_timeout cs)) as [r|e]; [|reflexivity].
  destruct (ok r); cbn; [|reflexivity].
  destruct (json r); reflexivity.
Qed.

(** C8, on the code: with the serving timeout left at its default of 600
    seconds a dispatcher is built with 480 seconds as its own [_timeout]
    and the tensor-server call is made with it, but the class attribute
    the callback reads stays [None], so the POST of [send_request] goes
    out with no timeout; and a dispatcher built later, under another
    serving timeout, derives its value again. *)
Theorem timeout_differs_between_calls :
  let cs := class_init in
  let self := new_instance cs world_up endpoint_f32 in
  __init__ cs world_up endpoint_f32 None = ret self
  /\ _timeout self = Some 480
  /\ cls_timeout cs = None
  /\ call_timeouts (trace (triton_process cs world_up self (VArray array_2x3) VNone))
     = [Some 480]
  /\ call_timeouts (trace (_preprocess_send_request world_up cs "test_model" (Some "1") VNone))
     = [None]
  /\ _timeout (new_instance cs (with_environ world_up (Some 100)) endpoint_f32) = Some 80.
Proof. cbn zeta. repeat split; vm_compute; reflexivity. Qed.

(** *** Loading the preprocessing code *)

(** C4, counterexample: with equal hashes the code asks for the local copy
    a second time, with archive extraction, and uses what that call gives. *)
Lemma hash_match_fetches_again :
  ~ no_fetch_after_hash_match world_up "py_code_test_model" (task_with "abc").
Proof.
  intros H.
  specialize (H (code_artifact "abc") "/cache/py_code_test_model.zip").
  assert (Hrun : local_preprocess_path world_up "py_code_test_model" (task_with "abc")
                 = IO (Py.Return "/cache/py_code_test_model")
                      [EvGetLocalCopy "py_code_test_model" None false;
                       EvGetLocalCopy "py_code_test_model" (Some true) false])
    by (vm_compute; reflexivity).
  rewrite Hrun in H.
  assert (Hfalse : IO (Py.Return "/cache/py_code_test_model")
                      [EvGetLocalCopy "py_code_test_model" None false;
                       EvGetLocalCopy "py_code_test_model" (Some true) false]
                   = IO (Py.Return "/cache/py_code_test_model.zip")
                        [EvGetLocalCopy "py_code_test_model" None false]).
  { apply H; vm_compute; reflexivity. }
  discriminate Hfalse.
Qed.

(** C4, amended: after the first local copy and its hash, equal hashes
    lead to one more call to [get_local_copy], with archive extraction and
    not forced, and nothing is printed; different hashes lead to the
    message and to exactly one forced call with archive extraction.  In
    both cases the path is what that last call gives. *)
Theorem hash_check_decides_refetch (w : world) (name : string) (task : Task)
    (a : Artifact) (path : string) (file_hash : option string) :
  artifacts task !! name = Some a ->
  get_local_copy a None false = Py.Return path ->
  sha256sum w path = Py.Return file_hash ->
  (file_hash = hash a ->
     local_preprocess_path w name task
     = IO (get_local_copy a (Some true) false)
          [EvGetLocalCopy name None false; EvGetLocalCopy name (Some true) false])
  /\ (file_hash <> hash a ->
        local_preprocess_path w name task
        = IO (get_local_copy a (Some true) true)
             [EvGetLocalCopy name None false;
              EvPrint (Py.format "INFO: re-downloading artifact '{}' hash changed" [name]);
              EvGetLocalCopy name (Some true) true]).
Proof.
  intros Ha Hpath Hhash.
  unfold local_preprocess_path, artifact_of, mbind, io_bind, bind, call, lift, emit.
  rewrite Ha. cbn [outcome trace ret]. rewrite Hpath. cbn [outcome trace].
  rewrite Hhash. cbn [outcome trace].
  split; intros Hcmp.
  - rewrite bool_decide_eq_false_2 by (intros Hne; by apply Hne).
    cbn [outcome trace]. destruct (get_local_copy a (Some true) false); reflexivity.
  - rewrite bool_decide_eq_true_2 by exact Hcmp.
    cbn [outcome trace]. destruct (get_local_copy a (Some true) true); reflexivity.
Qed.

Lemma hash_check_decides_refetch_witness :
  local_copies (trace (local_preprocess_path world_up "py_code_test_model" (task_with "abc")))
  = [(None, false); (Some true, false)]
  /\ local_copies (trace (local_preprocess_path world_up "py_code_test_model" (task_with "old")))
     = [(None, false); (Some true, true)].
Proof.
  split.
  - rewrite (proj1 (hash_check_decides_refetch world_up "py_code_test_model" (task_with "abc")
                      (code_artifact "abc") "/cache/py_code_test_model.zip" (Some "abc")
                      eq_refl eq_refl eq_refl) eq_refl).
    reflexivity.
  - rewrite (proj2 (hash_check_decides_refetch world_up "py_code_test_model" (task_with "old")
                      (code_artifact "old") "/cache/py_code_test_model.zip" (Some "abc")
                      eq_refl eq_refl eq_refl) ltac:(discriminate)).
    reflexivity.
Defined.

Lemma append_empty_r (s : string) : s +:+ "" = s.
Proof.
  induction s as [|c s IH]; [reflexivity|].
  change (String c (s +:+ "") = String c s). by rewrite IH.
Qed.

Lemma format_load_error (name cause : string) :
  Py.format "Error: Failed loading preprocess code for '{}': {}" [name; cause]
  = "Error: Failed loading preprocess code for '" +:+ name +:+ "': " +:+ cause.
Proof. cbn. rewrite append_empty_r. reflexivity. Qed.

(** Failures of single steps of the loader reach its caller. *)
Lemma loader_raises_when_path_fails cs w self name task ex :
  outcome (local_preprocess_path w name task) = Py.Raise ex ->
  outcome (_instantiate_custom_preprocess_cls cs w self name task) = Py.Raise ex.
Proof. intros H. by apply outcome_bind_raise. Qed.

Lemma loader_raises_when_import_fails cs w self name task path ex :
  outcome (local_preprocess_path w name task) = Py.Return path ->
  exec_module w path = Py.Raise ex ->
  outcome (_instantiate_custom_preprocess_cls cs w self name task) = Py.Raise ex.
Proof.
  intros Hpath Hexec. unfold _instantiate_custom_preprocess_cls.
  rewrite (outcome_bind_return _ _ _ Hpath).
  apply outcome_bind_raise. exact Hexec.
Qed.

Lemma loader_raises_when_entry_type_missing cs w self name task path m :
  outcome (local_preprocess_path w name task) = Py.Return path ->
  exec_module w path = Py.Return m ->
  m !! "Preprocess" = None ->
  outcome (_instantiate_custom_preprocess_cls cs w self name task)
  = Py.Raise (Py.AttributeError "module 'Preprocess' has no attribute 'Preprocess'").
Proof.
  intros Hpath Hexec Hnone. unfold _instantiate_custom_preprocess_cls.
  rewrite (outcome_bind_return _ _ _ Hpath).
  erewrite outcome_bind_return by exact Hexec.
  apply outcome_bind_raise. by rewrite Hnone.
Qed.

Lemma loader_raises_when_instantiation_fails cs w self name task path m c ex :
  outcome (local_preprocess_path w name task) = Py.Return path ->
  exec_module w path = Py.Return m ->
  m !! "Preprocess" = Some c ->
  outcome (cls_new c) = Py.Raise ex ->
  outcome (_instantiate_custom_preprocess_cls cs w self name task) = Py.Raise ex.
Proof.
  intros Hpath Hexec Hc Hnew. unfold _instantiate_custom_preprocess_cls.
  rewrite (outcome_bind_return _ _ _ Hpath).
  erewrite outcome_bind_return by exact Hexec.
  erewrite outcome_bind_return by (rewrite Hc; reflexivity).
  apply outcome_bind_raise. exact Hnew.
Qed.

(** C7: when the endpoint names a preprocessing artifact the task holds,
    whatever the loader raises, at any of its steps, leaves [__init__] as
    one [ValueError] whose text names the artifact and ends with the text
    of what was raised; no dispatcher is returned. *)
Theorem load_failure_is_configuration_error (cs : class_state) (w : world)
    (endpoint : ModelEndpoint) (task : Task) (name : string) (ex : Py.exn) :
  truthy (preprocess_artifact endpoint) = Some name ->
  name ∈ dom (artifacts task) ->
  outcome (_instantiate_custom_preprocess_cls cs w (new_instance cs w endpoint) name task)
  = Py.Raise ex ->
  outcome (__init__ cs w endpoint (Some task))
  = Py.Raise (Py.ValueError ("Error: Failed loading preprocess code for '"
                             +:+ name +:+ "': " +:+ Py.str ex))
  /\ forall self, outcome (__init__ cs w endpoint (Some task)) <> Py.Return self.
Proof.
  intros Hname Hin Hraise.
  assert (Hout : outcome (__init__ cs w endpoint (Some task))
                 = Py.Raise (Py.ValueError ("Error: Failed loading preprocess code for '"
                                            +:+ name +:+ "': " +:+ Py.str ex))).
  { unfold __init__. cbn zeta. rewrite Hname.
    rewrite bool_decide_eq_true_2 by exact Hin.
    unfold try_except. rewrite Hraise. cbn [outcome raise].
    by rewrite format_load_error. }
  split; [exact Hout|]. intros self Hself. rewrite Hout in Hself. discriminate Hself.
Qed.

Lemma load_failure_is_configuration_error_witness :
  outcome (__init__ class_init world_bad_code endpoint_py (Some (task_with "abc")))
  = Py.Raise (Py.ValueError
                "Error: Failed loading preprocess code for 'py_code_test_model': invalid syntax").
Proof.
  apply (proj1 (load_failure_is_configuration_error class_init world_bad_code endpoint_py
                  (task_with "abc") "py_code_test_model"
                  (Py.OtherError "SyntaxError" "invalid syntax")
                  eq_refl ltac:(vm_compute; reflexivity) ltac:(vm_compute; reflexivity))).
Defined.

End ServingFacts.

(** ** Remote tensor server adapter: theorems *)

Module TritonFacts.
Import Numpy Serving Examples Samples AsWorded NumpyFacts ServingFacts.

Local Open Scope Z_scope.
Local Open Scope list_scope.

(** The table as the dictionary display leaves it: eight keys. *)
Lemma content_lookup_entries dt :
  dict_get _content_lookup dt =
    match dt with
    | np_uint8 | np_uint64 => Some "uint_contents"
    | np_int8 | np_int => Some "int_contents"
    | np_int64 => Some "int64_contents"
    | np_bool => Some "bool_contents"
    | np_float32 => Some "fp32_contents"
    | np_float64 => Some "fp64_contents"
    | _ => None
    end.
Proof. destruct dt; reflexivity. Qed.

(** The table, read at the scalar type of a type object, which is how
    [process] reads it. *)
Lemma content_lookup_resolved dt :
  dict_get _content_lookup (dtype_type dt) =
    match dt with
    | np_uint8 | np_uint64 => Some "uint_contents"
    | np_int8 => Some "int_contents"
    | np_int64 | np_int => Some "int64_contents"
    | np_float32 => Some "fp32_contents"
    | np_float64 => Some "fp64_contents"
    | _ => None
    end.
Proof. destruct dt; reflexivity. Qed.

Lemma triton_server_address_not_empty cs : triton_server_address cs <> "".
Proof.
  unfold triton_server_address, or_str.
  destruct (cls_server_config cs !! "triton_grpc_server") as [[|c rest]|]; discriminate.
Qed.

(** No request leaves while the request is being built. *)
Lemma build_request_sends_nothing cs w self data :
  sent_requests (trace (build_request cs w self data)) = [].
Proof.
  unfold build_request, mbind, io_bind, bind, try_except, call, lift, raise, ret.
  destruct (triton_server_address cs) as [|c rest]; [reflexivity|].
  cbn [outcome trace].
  destruct (insecure_channel w (String c rest)) as [[]|e]; cbn [outcome trace]; [|reflexivity].
  destruct (np_array w data _) as [input_data|e]; cbn [outcome trace]; [|reflexivity].
  destruct (np_to_triton_dtype w _) as [datatype|e]; cbn [outcome trace]; [|reflexivity].
  destruct (dict_get _content_lookup _) as [input_func|]; [|reflexivity].
  cbn [outcome trace]. destruct (slice_assign input_func _); reflexivity.
Qed.

(** Without an entry in the table the request is not built. *)
Lemma build_request_raises_without_entry cs w self data :
  dict_get _content_lookup (dtype_type (input_type (model_endpoint self))) = None ->
  exists e, outcome (build_request cs w self data) = Py.Raise e.
Proof.
  intros Hnone.
  unfold build_request, mbind, io_bind, bind, try_except, call, lift, raise, ret.
  destruct (triton_server_address cs) as [|c rest]; [by eexists|].
  cbn [outcome trace].
  destruct (insecure_channel w (String c rest)) as [[]|e]; cbn [outcome trace]; [|by eexists].
  destruct (np_array w data _) as [input_data|e]; cbn [outcome trace]; [|by eexists].
  destruct (np_to_triton_dtype w _) as [datatype|e]; cbn [outcome trace]; [|by eexists].
  rewrite Hnone. by eexists.
Qed.

(** How the request comes out once the collaborators have answered. *)
Lemma build_request_steps cs w self data input_data datatype :
  insecure_channel w (triton_server_address cs) = Py.Return tt ->
  np_array w data (input_type (model_endpoint self)) = Py.Return input_data ->
  np_to_triton_dtype w (dtype_type (input_type (model_endpoint self))) = Py.Return datatype ->
  build_request cs w self data
  = let ep := model_endpoint self in
    match dict_get _content_lookup (dtype_type (input_type ep)) with
    | None =>
        IO (Py.Raise (Py.ValueError
                        (Py.format "Input type nt supported {}"
                                   [type_repr (dtype_type (input_type ep))])))
           [EvInsecureChannel (triton_server_address cs)]
    | Some input_func =>
        match slice_assign input_func (nd_data input_data) with
        | Py.Raise e => IO (Py.Raise e) [EvInsecureChannel (triton_server_address cs)]
        | Py.Return contents =>
            IO (Py.Return
                  {| model_name := strip "/" (Py.format "{}/{}" [serving_url ep; version ep]);
                     model_version := "1";
                     inputs := [ {| in_name := input_name ep; in_datatype := datatype;
                                    in_shape := input_size ep;
                                    in_contents := {[ input_func := contents ]} |} ];
                     outputs := [ {| out_name := output_name ep |} ] |})
               [EvInsecureChannel (triton_server_address cs)]
        end
    end.
Proof.
  intros Hchan Harr Hdt.
  pose proof (triton_server_address_not_empty cs) as Haddr.
  unfold build_request, mbind, io_bind, bind, try_except, call, lift, raise, ret.
  destruct (triton_server_address cs) as [|c rest] eqn:Ea; [done|].
  cbn [outcome trace]. rewrite Hchan. cbn [outcome trace].
  rewrite Harr. cbn [outcome trace]. rewrite Hdt. cbn [outcome trace].
  destruct (dict_get _content_lookup _) as [input_func|]; [|reflexivity].
  cbn [outcome trace flatten nd_data].
  destruct (slice_assign input_func (nd_data input_data)); reflexivity.
Qed.

Lemma triton_process_without_override cs w self data sink :
  plugin_with self "process" = None ->
  triton_process cs w self data sink
  = (request ← build_request cs w self data;
     response ← call (EvModelInfer request "Gzip" (self_timeout cs self))
                     (ModelInfer w request);
     lift (decode_response self response)).
Proof. intros H. unfold triton_process. by rewrite H. Qed.

Lemma format_unsupported (repr : string) :
  Py.format "Input type nt supported {}" [repr] = "Input type nt supported " +:+ repr.
Proof. cbn. rewrite append_empty_r. reflexivity. Qed.

(** What [process] does with the table, read at the scalar type of the
    endpoint's input type: without an entry it raises before any request
    is sent; with an entry whose field takes the values, the request sent
    carries them in that field and in no other. *)
Lemma content_field_follows_resolved_type (cs : class_state) (w : world)
    (self : BasePreprocessRequest) (data sink : value) :
  let dt := dtype_type (input_type (model_endpoint self)) in
  plugin_with self "process" = None ->
  (dict_get _content_lookup dt = None ->
     (exists e, outcome (triton_process cs w self data sink) = Py.Raise e)
     /\ sent_requests (trace (triton_process cs w self data sink)) = []
     /\ forall input_data datatype,
          insecure_channel w (triton_server_address cs) = Py.Return tt ->
          np_array w data (input_type (model_endpoint self)) = Py.Return input_data ->
          np_to_triton_dtype w dt = Py.Return datatype ->
          outcome (triton_process cs w self data sink)
          = Py.Raise (Py.ValueError ("Input type nt supported " +:+ type_repr dt)))
  /\ (forall input_func input_data datatype contents,
        dict_get _content_lookup dt = Some input_func ->
        insecure_channel w (triton_server_address cs) = Py.Return tt ->
        np_array w data (input_type (model_endpoint self)) = Py.Return input_data ->
        np_to_triton_dtype w dt = Py.Return datatype ->
        slice_assign input_func (nd_data input_data) = Py.Return contents ->
        exists request input0,
          sent_requests (trace (triton_process cs w self data sink)) = [request]
          /\ inputs request = [input0]
          /\ in_contents input0 = {[ input_func := contents ]}).
Proof.
  intros dt Hplugin. rewrite (triton_process_without_override _ _ _ _ _ Hplugin).
  split.
  - intros Hnone.
    destruct (build_request_raises_without_entry cs w self data Hnone) as [e He].
    repeat split.
    + exists e. by apply outcome_bind_raise.
    + rewrite (bind_raise _ _ _ He). cbn [trace]. apply build_request_sends_nothing.
    + intros input_data datatype Hchan Harr Hdt.
      pose proof (build_request_steps cs w self data input_data datatype Hchan Harr Hdt) as Hb.
      cbn zeta in Hb. fold dt in Hb. rewrite Hnone in Hb.
      rewrite Hb. unfold mbind, io_bind, bind. cbn [outcome].
      by rewrite format_unsupported.
  - intros input_func input_data datatype contents Hsome Hchan Harr Hdt Hfit.
    pose proof (build_request_steps cs w self data input_data datatype Hchan Harr Hdt) as Hb.
    cbn zeta in Hb. fold dt in Hb. rewrite Hsome, Hfit in Hb.
    rewrite Hb. eexists. eexists. split.
    { unfold mbind, io_bind, bind, call, lift. cbn [outcome trace].
      destruct (ModelInfer w _) as [response|e]; cbn [outcome trace]; [|reflexivity].
      rewrite app_nil_r. reflexivity. }
    split; reflexivity.
Qed.

(** C2, on the code: the nine items of the table leave eight keys, the
    item for [np.uint] having replaced the value of the one for
    [np.uint64].  The table holds an item for [np.bool], yet an endpoint of
    that input type gets the unsupported-type error for a boolean array and
    nothing is sent, because the type [process] looks up is [numpy.bool_];
    the item for [np.uint64] names [uint64_contents], yet an unsigned
    64-bit array is sent in [uint_contents]; and the item for [np.int]
    names [int_contents], yet an endpoint of that input type sends its
    array in [int64_contents]. *)
Theorem table_items_are_not_followed :
  _content_lookup
  = [ (np_uint8, "uint_contents"); (np_int8, "int_contents");
      (np_int64, "int64_contents"); (np_uint64, "uint_contents");
      (np_int, "int_contents"); (np_bool, "bool_contents");
      (np_float32, "fp32_contents"); (np_float64, "fp64_contents") ]
  /\ dict_get _content_lookup np_bool = Some "bool_contents"
  /\ triton_process class_init world_up (plain (endpoint_of np_bool)) (VArray array_bool) VNone
     = IO (Py.Raise (Py.ValueError "Input type nt supported <class 'numpy.bool_'>"))
          [EvInsecureChannel "127.0.0.1:8001"]
  /\ sent_contents (trace (triton_process class_init world_up (plain (endpoint_of np_uint64))
                             (VArray array_u64) VNone))
     = [ [ [ ("uint_contents", [1; 2]) ] ] ]
  /\ dict_get _content_lookup np_int = Some "int_contents"
  /\ sent_contents (trace (triton_process class_init world_up (plain (endpoint_of np_int))
                             (VArray array_i64) VNone))
     = [ [ [ ("int64_contents", [3; -4]) ] ] ]
  /\ (forall cs w data sink,
        (exists e, outcome (triton_process cs w (plain (endpoint_of np_bool)) data sink)
                   = Py.Raise e)
        /\ sent_requests (trace (triton_process cs w (plain (endpoint_of np_bool)) data sink))
           = []).
Proof.
  split; [reflexivity|].
  split; [reflexivity|].
  split; [vm_compute; reflexivity|].
  split; [vm_compute; reflexivity|].
  split; [reflexivity|].
  split; [vm_compute; reflexivity|].
  intros cs w data sink.
  destruct (content_field_follows_resolved_type cs w (plain (endpoint_of np_bool)) data sink
              eq_refl) as [Hnone _].
  destruct (Hnone eq_refl) as (Hraise & Hsent & _).
  split; [exact Hraise|exact Hsent].
Qed.

(** *** Decoding the response *)

Lemma decode_output_of_own_bytes a :
  wf a -> decode_output (nd_dtype a) (tobytes a) (nd_shape a) = Py.Return a.
Proof.
  intros Hwf. unfold decode_output.
  rewrite frombuffer_tobytes by apply Hwf.
  cbn. by apply resize_flatten.
Qed.

(** The loop decodes the outputs in the order of the response, each with
    the raw buffer at its own position. *)
Lemma decode_outputs_positional dt raw : forall outs (index : nat) acc arrs,
  length arrs = length outs ->
  (forall (i : nat) output, outs !! i = Some output ->
     exists buf a, raw !! (index + i)%nat = Some buf /\ arrs !! i = Some a
                   /\ decode_output dt buf (o_shape output) = Py.Return a) ->
  decode_outputs dt outs raw index acc = Py.Return (acc ++ arrs, (index + length outs)%nat).
Proof.
  induction outs as [|output outs IH]; intros index acc arrs Hlen Hpos.
  - destruct arrs; [|discriminate Hlen]. cbn. by rewrite app_nil_r, Nat.add_0_r.
  - destruct arrs as [|a0 arrs]; [discriminate Hlen|].
    destruct (Hpos 0%nat output eq_refl) as (buf & a & Hbuf & Ha & Hdec).
    rewrite Nat.add_0_r in Hbuf. cbn in Ha. injection Ha as Ha. subst a0.
    cbn [decode_outputs]. rewrite Hbuf. cbn. rewrite Hdec. cbn.
    rewrite (IH (S index) (acc ++ [a]) arrs).
    + rewrite <- app_assoc. cbn [length]. do 2 f_equal. lia.
    + cbn in Hlen. lia.
    + intros i out Hi. destruct (Hpos (S i) out Hi) as (b & x & Hb & Hx & Hd).
      exists b, x. repeat split; [|exact Hx|exact Hd].
      by replace (S index + i)%nat with (index + S i)%nat by lia.
Qed.

(** C3: when the server's outputs decode, position by position, to the
    arrays [arrs], [process] (not overridden by the plugin) returns the one
    array itself if the response has exactly one output, and otherwise the
    list of the arrays in the order of the response. *)
Theorem single_output_is_bare_array (cs : class_state) (w : world)
    (self : BasePreprocessRequest) (data sink : value)
    (request : ModelInferRequest) (response : ModelInferResponse)
    (arrs : list ndarray) :
  plugin_with self "process" = None ->
  outcome (build_request cs w self data) = Py.Return request ->
  ModelInfer w request = Py.Return response ->
  length arrs = length (resp_outputs response) ->
  (forall (i : nat) output, resp_outputs response !! i = Some output ->
     exists buf a, raw_output_contents response !! i = Some buf /\ arrs !! i = Some a
       /\ decode_output (output_type (model_endpoint self)) buf (o_shape output)
          = Py.Return a) ->
  (length (resp_outputs response) = 1%nat ->
     exists a, arrs = [a]
       /\ outcome (triton_process cs w self data sink) = Py.Return (VArray a))
  /\ (length (resp_outputs response) <> 1%nat ->
        outcome (triton_process cs w self data sink) = Py.Return (VList (map VArray arrs))).
Proof.
  intros Hplugin Hbuild Hinfer Hlen Hpos.
  assert (Hout : outcome (triton_process cs w self data sink)
                 = decode_response self response).
  { rewrite (triton_process_without_override _ _ _ _ _ Hplugin).
    rewrite (outcome_bind_return _ _ _ Hbuild).
    erewrite outcome_bind_return by (cbn; exact Hinfer). reflexivity. }
  assert (Hdec : decode_outputs (output_type (model_endpoint self)) (resp_outputs response)
                   (raw_output_contents response) 0 []
                 = Py.Return (arrs, length (resp_outputs response))).
  { by rewrite (decode_outputs_positional _ _ _ 0%nat [] arrs Hlen Hpos). }
  rewrite Hout. unfold decode_response. rewrite Hdec. cbn.
  split.
  - intros Hone. rewrite Hone in Hlen |- *.
    destruct arrs as [|a [|b arrs]]; try discriminate Hlen.
    exists a. split; reflexivity.
  - intros Hmany. destruct (length (resp_outputs response)) as [|[|n]]; [|done|]; reflexivity.
Qed.

Lemma single_output_is_bare_array_witness :
  outcome (triton_process class_init world_up (plain endpoint_f32) (VArray array_2x3) VNone)
  = Py.Return (VArray array_2x3)
  /\ outcome (triton_process class_init (with_server world_up two_output_server)
                (plain endpoint_f32) (VArray array_2x3) VNone)
     = Py.Return
         (VList [ VArray {| nd_dtype := np_float32; nd_shape := [1];
                            nd_data := [1065353216] |};
                  VArray {| nd_dtype := np_float32; nd_shape := [2];
                            nd_data := [1073741824; 1077936128] |} ]).
Proof.
  split.
  - destruct (proj1 (single_output_is_bare_array class_init world_up (plain endpoint_f32)
                       (VArray array_2x3) VNone _ _ [array_2x3]
                       eq_refl eq_refl eq_refl eq_refl
                       ltac:(intros [|[|i]] output Hi; [|discriminate Hi..];
                             injection Hi as <-; eexists; eexists;
                             repeat split; vm_compute; reflexivity))
               eq_refl) as (a & Ha & Hout).
    injection Ha as <-. exact Hout.
  - apply (proj2 (single_output_is_bare_array class_init (with_server world_up two_output_server)
                    (plain endpoint_f32) (VArray array_2x3) VNone _ _
                    [ {| nd_dtype := np_float32; nd_shape := [1]; nd_data := [1065353216] |};
                      {| nd_dtype := np_float32; nd_shape := [2];
                         nd_data := [1073741824; 1077936128] |} ]
                    eq_refl eq_refl eq_refl eq_refl
                    ltac:(intros [|[|[|i]]] output Hi; [| |discriminate Hi..];
                          injection Hi as <-; eexists; eexists;
                          repeat split; vm_compute; reflexivity))).
    vm_compute. discriminate.
Defined.

(** The round trip where it holds: when the table has an entry for the
    scalar type of the endpoint's input type and the field of that entry
    takes the array's values, the request holds the array's elements, in
    row-major order, in that field, and a response whose one output has the
    array's shape and, as raw buffer, the bytes of those elements, is
    decoded to the array itself. *)
Lemma round_trip_when_field_takes_values (cs : class_state) (w : world)
    (self : BasePreprocessRequest) (a : ndarray)
    (input_func datatype : string) (contents : list Z) :
  let ep := model_endpoint self in
  dict_get _content_lookup (dtype_type (input_type ep)) = Some input_func ->
  dtype_type (nd_dtype a) = dtype_type (input_type ep) ->
  output_type ep = nd_dtype a ->
  wf a ->
  insecure_channel w (triton_server_address cs) = Py.Return tt ->
  np_to_triton_dtype w (dtype_type (input_type ep)) = Py.Return datatype ->
  slice_assign input_func (nd_data a) = Py.Return contents ->
  exists request input0,
    outcome (build_request cs w self (VArray a)) = Py.Return request
    /\ inputs request = [input0]
    /\ in_contents input0 = {[ input_func := contents ]}
    /\ contents = nd_data a
    /\ forall name,
         decode_response self
           {| resp_outputs := [ {| o_name := name; o_shape := nd_shape a |} ];
              raw_output_contents := [ concat (map (to_bytes (nd_dtype a)) contents) ] |}
         = Py.Return (VArray a).
Proof.
  intros ep Hentry Hdt Hout Hwf Hchan Hname Hfit.
  assert (Harr : np_array w (VArray a) (input_type ep) = Py.Return a).
  { unfold np_array. by rewrite decide_True. }
  assert (Hsame : contents = nd_data a).
  { unfold slice_assign in Hfit. destruct (field_bounds input_func) as [[lo hi]|].
    - destruct (find _ _); [discriminate Hfit|]. by injection Hfit as <-.
    - by injection Hfit as <-. }
  pose proof (build_request_steps cs w self (VArray a) a datatype Hchan Harr Hname) as Hb.
  cbn zeta in Hb. fold ep in Hb. rewrite Hentry, Hfit in Hb.
  eexists. eexists.
  split; [by rewrite Hb|].
  split; [reflexivity|].
  split; [reflexivity|].
  split; [exact Hsame|].
  intros name. unfold decode_response. cbn [resp_outputs raw_output_contents decode_outputs].
  fold ep. rewrite Hout, Hsame. cbn [lookup list_lookup o_shape].
  change (concat (map (to_bytes (nd_dtype a)) (nd_data a))) with (tobytes a).
  cbn. rewrite decode_output_of_own_bytes by exact Hwf. reflexivity.
Qed.

Lemma array_2x3_wf : wf array_2x3.
Proof.
  unfold wf. cbn. repeat split.
  - repeat constructor; lia.
  - repeat constructor; unfold in_range; cbn; lia.
Qed.

(** The round trip of the 2x3 array of 32-bit floats. *)
Lemma round_trip_of_array_2x3 :
  exists request input0,
    outcome (build_request class_init world_up (plain endpoint_f32) (VArray array_2x3))
    = Py.Return request
    /\ inputs request = [input0]
    /\ in_contents input0 = {[ "fp32_contents" := nd_data array_2x3 ]}
    /\ decode_response (plain endpoint_f32)
         {| resp_outputs := [ {| o_name := "output0"; o_shape := [2; 3] |} ];
            raw_output_contents :=
              [ concat (map (to_bytes np_float32) (nd_data array_2x3)) ] |}
       = Py.Return (VArray array_2x3).
Proof.
  destruct (round_trip_when_field_takes_values class_init world_up (plain endpoint_f32)
              array_2x3 "fp32_contents" "FP32" (nd_data array_2x3)
              eq_refl eq_refl eq_refl array_2x3_wf eq_refl eq_refl eq_refl)
    as (request & input0 & Hreq & Hin & Hfield & _ & Hdec).
  exists request, input0.
  split; [exact Hreq|]. split; [exact Hin|]. split; [exact Hfield|]. apply Hdec.
Qed.

(** C1, on the code: two of the element types of the table do not make the
    round trip.  For an endpoint of input type [np.bool] and an array of
    booleans no request tensor is built, [process] raising the
    unsupported-type error; for an endpoint of input type [np.uint64] and
    the array [[1, 2**40]] none is built either, the values going to the
    32-bit field [uint_contents], which refuses the second.  The way back
    is not at fault: the bytes of that array, with its type and shape, are
    decoded to the array itself.  For the input type [np.bool] no data and
    no answer of the collaborators gets a request built. *)
Theorem round_trip_breaks_for_bool_and_uint64 :
  build_request class_init world_up (plain (endpoint_of np_bool)) (VArray array_bool)
  = IO (Py.Raise (Py.ValueError "Input type nt supported <class 'numpy.bool_'>"))
       [EvInsecureChannel "127.0.0.1:8001"]
  /\ build_request class_init world_up (plain (endpoint_of np_uint64)) (VArray array_u64_wide)
     = IO (Py.Raise (Py.ValueError "Value out of range: 1099511627776"))
          [EvInsecureChannel "127.0.0.1:8001"]
  /\ triton_process class_init world_up (plain (endpoint_of np_uint64))
       (VArray array_u64_wide) VNone
     = IO (Py.Raise (Py.ValueError "Value out of range: 1099511627776"))
          [EvInsecureChannel "127.0.0.1:8001"]
  /\ decode_response (plain (endpoint_of np_uint64))
       {| resp_outputs := [ {| o_name := "output0"; o_shape := nd_shape array_u64_wide |} ];
          raw_output_contents := [ tobytes array_u64_wide ] |}
     = Py.Return (VArray array_u64_wide)
  /\ (forall cs w data,
        exists e, outcome (build_request cs w (plain (endpoint_of np_bool)) data)
                  = Py.Raise e).
Proof.
  split; [vm_compute; reflexivity|].
  split; [vm_compute; reflexivity|].
  split; [vm_compute; reflexivity|].
  split; [vm_compute; reflexivity|].
  intros cs w data.
  by apply build_request_raises_without_entry.
Qed.

(** *** A buffer that does not match the declared shape *)

(** C10, counterexample: from an empty buffer a shape of two elements is
    filled with zeros, there is nothing to repeat. *)
Lemma empty_buffer_is_zero_filled : ~ filled_by_repetition np_float32 [] [2].
Proof.
  intros (a & Hdec & _ & Hfill).
  vm_compute in Hdec. injection Hdec as <-.
  specialize (Hfill 0%nat ltac:(cbn; lia)). discriminate Hfill.
Qed.

Lemma decode_output_bad_length dt buf shape :
  (length buf mod itemsize dt)%nat <> 0%nat ->
  decode_output dt buf shape
  = Py.Raise (Py.ValueError "buffer size must be a multiple of element size").
Proof.
  intros H. unfold decode_output, frombuffer.
  by replace ((length buf mod itemsize dt =? 0)%nat) with false
    by (symmetry; by apply Nat.eqb_neq).
Qed.

(** C10, amended: for a raw buffer that is a whole number of elements and
    a declared shape without a negative entry, decoding succeeds whatever
    the two sizes are, and the result has the output element type and
    exactly the declared shape; it is filled with the elements of the
    buffer, cut off when there are too many and started over when there are
    too few, and with zeros when the buffer holds no element. *)
Theorem decode_output_has_declared_shape (dt : dtype) (buf : list Byte.byte)
    (shape : list Z) :
  (length buf mod itemsize dt)%nat = 0%nat ->
  Forall (fun d => 0 <= d) shape ->
  exists a, decode_output dt buf shape = Py.Return a
    /\ nd_dtype a = dt
    /\ nd_shape a = shape
    /\ Z.of_nat (length (nd_data a)) = prod_shape shape
    /\ forall i : nat, (i < length (nd_data a))%nat ->
         nd_data a !! i =
           match buffer_elements dt buf with
           | [] => Some 0
           | _ :: _ =>
               buffer_elements dt buf !! (i mod length (buffer_elements dt buf))%nat
           end.
Proof.
  intros Hlen Hshape. unfold decode_output, frombuffer.
  rewrite Hlen. cbn [Nat.eqb].
  set (flat := {| nd_dtype := dt;
                  nd_shape := [Z.of_nat (length buf / itemsize dt)];
                  nd_data := buffer_elements dt buf |}).
  destruct (resize_spec flat shape Hshape) as (r & Hr & Hdt & Hsh & Hsize & Hfill).
  exists r. cbn. rewrite Hr. repeat split; assumption.
Qed.

Lemma decode_output_has_declared_shape_witness :
  exists a,
    decode_output np_float32
      (to_bytes np_float32 1084227584 ++ to_bytes np_float32 1086324736) [3; 1]
    = Py.Return a
    /\ nd_shape a = [3; 1]
    /\ nd_data a = [1084227584; 1086324736; 1084227584].
Proof.
  destruct (decode_output_has_declared_shape np_float32
              (to_bytes np_float32 1084227584 ++ to_bytes np_float32 1086324736) [3; 1]
              eq_refl ltac:(repeat constructor; lia))
    as (a & Hdec & _ & Hshape & _ & _).
  exists a. split; [exact Hdec|]. split; [exact Hshape|].
  vm_compute in Hdec. by injection Hdec as <-.
Defined.

End TritonFacts.

(** ** Registry and module loading: further theorems *)

Module RegistryMore.
Import Registry Adapters RegistryFacts.

Lemma registrations_snoc regs reg r :
  registrations (regs ++ [reg]) r = decorate reg (registrations regs r).
Proof. unfold registrations. by rewrite fold_left_app. Qed.

Lemma registrations_lookup_is_Some regs : forall r name,
  is_Some (preprocessing_lookup (registrations regs r) !! name)
  <-> name ∈ map reg_name regs \/ is_Some (preprocessing_lookup r !! name).
Proof.
  induction regs as [|reg regs IH]; intros r name.
  - cbn. rewrite elem_of_nil. tauto.
  - cbn [registrations fold_left map]. fold (registrations regs (decorate reg r)).
    rewrite IH, decorate_lookup, elem_of_cons.
    destruct (decide (reg_name reg = name)) as [->|Hne].
    + rewrite lookup_insert_eq. split; [intros _; by left; left|intros _; right; by eexists].
    + rewrite lookup_insert_ne by done. split.
      * intros [H|H]; [left; by right|by right].
      * intros [[H|H]|H]; [congruence|by left|by right].
Qed.

(** X1: after any run of registrations on the empty registry, the names
    [validate_engine_type] accepts are exactly the names that were
    registered. *)
Theorem supported_iff_registered
    (regs : list (string * option (list string) * engine_cls)) (name : string) :
  validate_engine_type (registrations regs empty) name = true
  <-> name ∈ map reg_name regs.
Proof.
  rewrite <- validate_iff_resolve. unfold get_engine_cls.
  rewrite registrations_lookup_is_Some. cbn. rewrite lookup_empty.
  split; [intros [H|[x Hx]]; [exact H|discriminate Hx]|by left].
Qed.

(** X2: registering a name again replaces its constructor, and a
    registration changes what no other name resolves to. *)
Theorem last_registration_wins
    (regs : list (string * option (list string) * engine_cls))
    (name : string) (modules : option (list string)) (cls : engine_cls)
    (r : registry) :
  get_engine_cls (registrations (regs ++ [(name, modules, cls)]) r) name = Some cls
  /\ forall other, other <> name ->
       get_engine_cls (registrations (regs ++ [(name, modules, cls)]) r) other
       = get_engine_cls (registrations regs r) other.
Proof.
  unfold get_engine_cls. rewrite registrations_snoc, decorate_lookup. cbn. split.
  - apply lookup_insert_eq.
  - intros other Hne. by apply lookup_insert_ne.
Qed.

Lemma last_registration_wins_witness :
  get_engine_cls (registrations (module_registrations
                                 ++ [("sklearn", None, CustomPreprocessRequest)]) empty)
                 "sklearn" = Some CustomPreprocessRequest
  /\ get_engine_cls (registrations (module_registrations
                                    ++ [("sklearn", None, CustomPreprocessRequest)]) empty)
                    "triton" = Some TritonPreprocessRequest.
Proof.
  destruct (last_registration_wins module_registrations "sklearn" None
              CustomPreprocessRequest empty) as [Hnew Hother].
  split; [exact Hnew|].
  rewrite (Hother "triton" ltac:(discriminate)). reflexivity.
Defined.

Lemma decorate_modules reg r :
  preprocessing_modules (decorate reg r)
  = preprocessing_modules r ∪ list_to_set (default [] (snd (fst reg))).
Proof.
  destruct reg as [[name modules] cls]. unfold decorate, register_engine.
  destruct modules as [[|m ms]|]; cbn; try reflexivity; by rewrite (right_id_L ∅ (∪)).
Qed.

(** X3: the set of module names only grows: after a run of registrations
    it holds what it held before and the names of every module list that
    was given, and nothing else. *)
Theorem modules_accumulate
    (regs : list (string * option (list string) * engine_cls)) (r : registry)
    (m : string) :
  m ∈ preprocessing_modules (registrations regs r)
  <-> m ∈ preprocessing_modules r
      \/ exists reg ms, reg ∈ regs /\ snd (fst reg) = Some ms /\ m ∈ ms.
Proof.
  revert r. induction regs as [|reg regs IH]; intros r.
  - cbn. split; [by left|]. intros [H|(reg & ms & Hin & _)]; [exact H|].
    by apply elem_of_nil in Hin.
  - cbn [registrations fold_left]. fold (registrations regs (decorate reg r)).
    rewrite IH, decorate_modules, elem_of_union, elem_of_list_to_set. split.
    + intros [[H|H]|(reg' & ms & Hin & Hms & Hm)].
      * by left.
      * right. destruct (snd (fst reg)) as [ms|] eqn:E; cbn in H.
        -- exists reg, ms. split; [by left|done].
        -- by apply elem_of_nil in H.
      * right. exists reg', ms. split; [by right|done].
    + intros [H|(reg' & ms & Hin & Hms & Hm)]; [by left; left|].
      apply elem_of_cons in Hin as [->|Hin].
      * left; right. by rewrite Hms.
      * right. by exists reg', ms.
Qed.

Lemma load_each_returns libs names :
  load_each libs names = Py.Return tt
  <-> forall m e, m ∈ names -> import_module libs m = Py.Raise e ->
        import_or_type_error libs e = true.
Proof.
  induction names as [|m names IH]; cbn [load_each].
  - split; [|done]. intros _ m e Hin. by apply elem_of_nil in Hin.
  - destruct (import_module libs m) as [[]|e] eqn:Him.
    + rewrite IH. split.
      * intros H m' e' Hin Hr. apply elem_of_cons in Hin as [->|Hin]; [congruence|eauto].
      * intros H m' e' Hin. apply H. by right.
    + destruct (import_or_type_error libs e) eqn:Hcatch.
      * rewrite IH. split.
        -- intros H m' e' Hin Hr. apply elem_of_cons in Hin as [->|Hin]; [congruence|eauto].
        -- intros H m' e' Hin. apply H. by right.
      * split; [discriminate|]. intros H.
        rewrite (H m e) in Hcatch; [discriminate|by left|done].
Qed.

Lemma load_each_raises libs names e :
  load_each libs names = Py.Raise e ->
  exists m, m ∈ names /\ import_module libs m = Py.Raise e
            /\ import_or_type_error libs e = false.
Proof.
  induction names as [|m names IH]; cbn [load_each]; [discriminate|].
  destruct (import_module libs m) as [[]|e'] eqn:Him.
  - intros H. destruct (IH H) as (m' & Hin & Hm'). exists m'. split; [by right|done].
  - destruct (import_or_type_error libs e') eqn:Hcatch.
    + intros H. destruct (IH H) as (m' & Hin & Hm'). exists m'. split; [by right|done].
    + intros H. injection H as <-. exists m. split; [by left|done].
Qed.

(** X4: [load_modules] passes over a module whose import fails with an
    instance of [ImportError] or of [TypeError], their subclasses included,
    and goes on; it returns normally exactly when no recorded module fails
    in another way, and an exception it raises is the one a recorded module
    failed with, left uncaught by the [except] clause. *)
Theorem load_modules_swallows_import_errors_only (libs : libraries) (r : registry) :
  (load_modules libs r = Py.Return tt
   <-> forall m e, m ∈ preprocessing_modules r -> import_module libs m = Py.Raise e ->
         import_or_type_error libs e = true)
  /\ (forall e, load_modules libs r = Py.Raise e ->
        exists m, m ∈ preprocessing_modules r /\ import_module libs m = Py.Raise e
                  /\ import_or_type_error libs e = false)
  /\ (forall cls msg,
        import_or_type_error libs (Py.OtherError cls msg)
        = bool_decide (cls = "ImportError") || inherits libs cls "ImportError"
          || (bool_decide (cls = "TypeError") || inherits libs cls "TypeError")).
Proof.
  unfold load_modules. split; [|split].
  - rewrite load_each_returns.
    split; intros H m e Hin; apply H; by apply elem_of_elements.
  - intros e H. destruct (load_each_raises _ _ _ H) as (m & Hin & Hm).
    exists m. split; [by apply elem_of_elements|done].
  - reflexivity.
Qed.

Example load_modules_missing_packages :
  load_modules (libraries_partial ["joblib"; "sklearn"] "") module_registry = Py.Return tt.
Proof. vm_compute. reflexivity. Qed.

Example load_modules_broken_package :
  load_modules (libraries_partial ["joblib"; "sklearn"] "grpc") module_registry
  = Py.Raise (Py.OtherError "RuntimeError" "boom").
Proof. vm_compute. reflexivity. Qed.

End RegistryMore.


(** ** Addresses and names built from strings: further theorems *)

Module UrlFacts.
Import Numpy Serving Examples Text ServingFacts TritonFacts.

Local Open Scope list_scope.

Lemma append_cons a s t : String a s +:+ t = String a (s +:+ t).
Proof. reflexivity. Qed.

Lemma append_nil_l t : "" +:+ t = t.
Proof. reflexivity. Qed.

Lemma append_assoc_s (s t u : string) : (s +:+ t) +:+ u = s +:+ (t +:+ u).
Proof.
  induction s as [|a s IH]; [reflexivity|].
  rewrite !append_cons. by rewrite IH.
Qed.

Lemma rev_string_acc s : forall acc, rev_string s acc = rev_string s "" +:+ acc.
Proof.
  induction s as [|a s IH]; intros acc; [reflexivity|].
  cbn [rev_string]. rewrite (IH (String a acc)), (IH (String a "")).
  by rewrite append_assoc_s.
Qed.

Lemma rev_string_cons a s : rev_string (String a s) "" = rev_string s "" +:+ String a "".
Proof. cbn [rev_string]. apply rev_string_acc. Qed.

Lemma rev_string_append s t :
  rev_string (s +:+ t) "" = rev_string t "" +:+ rev_string s "".
Proof.
  induction s as [|a s IH].
  - rewrite append_nil_l. cbn [rev_string]. by rewrite append_empty_r.
  - rewrite append_cons, !rev_string_cons, IH. by rewrite append_assoc_s.
Qed.

Lemma rev_string_involutive s : rev_string (rev_string s "") "" = s.
Proof.
  induction s as [|a s IH]; [reflexivity|].
  rewrite rev_string_cons, rev_string_append, IH. reflexivity.
Qed.

Lemma rev_string_empty s : rev_string s "" = "" -> s = "".
Proof. intros H. rewrite <- (rev_string_involutive s), H. reflexivity. Qed.

Lemma run_of_snoc c k : run_of c k +:+ String c "" = String c (run_of c k).
Proof.
  induction k as [|k IH]; [reflexivity|].
  cbn [run_of]. rewrite append_cons. by rewrite IH.
Qed.

Lemma rev_run_of c k : rev_string (run_of c k) "" = run_of c k.
Proof.
  induction k as [|k IH]; [reflexivity|].
  cbn [run_of]. rewrite rev_string_cons, IH. apply run_of_snoc.
Qed.

Lemma lstrip_cons_same c s : lstrip c (String c s) = lstrip c s.
Proof. cbn [lstrip]. by rewrite Ascii.eqb_refl. Qed.

Lemma lstrip_run_of c k t : lstrip c (run_of c k +:+ t) = lstrip c t.
Proof.
  induction k as [|k IH]; [reflexivity|].
  cbn [run_of]. by rewrite append_cons, lstrip_cons_same.
Qed.

Lemma lstrip_not_starts c s : ~ starts_with c (lstrip c s).
Proof.
  induction s as [|a s IH]; cbn [lstrip]; [by intros []|].
  destruct (Ascii.eqb_spec a c) as [->|Hne]; [exact IH|]. cbn. exact Hne.
Qed.

Lemma lstrip_id c s : ~ starts_with c s -> lstrip c s = s.
Proof.
  destruct s as [|a s]; [reflexivity|]. cbn. intros Hne.
  destruct (Ascii.eqb_spec a c) as [->|_]; [by destruct Hne|reflexivity].
Qed.

(** What [lstrip] takes away is a run of [c]. *)
Lemma lstrip_split c s : exists k, s = run_of c k +:+ lstrip c s.
Proof.
  induction s as [|a s [k Hk]]; [by exists 0%nat|].
  cbn [lstrip]. destruct (Ascii.eqb_spec a c) as [->|Hne].
  - exists (S k). cbn [run_of]. by rewrite append_cons, <- Hk.
  - by exists 0%nat.
Qed.

Lemma starts_with_append c s t :
  s <> "" -> starts_with c (s +:+ t) <-> starts_with c s.
Proof. destruct s as [|a s]; [done|]. intros _. by rewrite append_cons. Qed.

Lemma strip_not_ends c s : ~ ends_with c (strip c s).
Proof.
  unfold ends_with, strip. rewrite rev_string_involutive. apply lstrip_not_starts.
Qed.

Lemma strip_not_starts c s : ~ starts_with c (strip c s).
Proof.
  unfold strip. set (L := lstrip c s).
  destruct (lstrip_split c (rev_string L "")) as [k Hk].
  set (X := lstrip c (rev_string L "")) in *.
  assert (HL : L = rev_string X "" +:+ run_of c k).
  { rewrite <- (rev_string_involutive L), Hk, rev_string_append, rev_run_of.
    reflexivity. }
  intros Hs. apply (lstrip_not_starts c s). fold L. rewrite HL.
  apply starts_with_append; [|exact Hs].
  intros He. rewrite He in Hs. exact Hs.
Qed.

Lemma strip_fixed c s : ~ starts_with c s -> ~ ends_with c s -> strip c s = s.
Proof.
  intros Hs He. unfold strip. rewrite (lstrip_id c s Hs).
  rewrite (lstrip_id c _ He). apply rev_string_involutive.
Qed.

Lemma strip_idempotent c s : strip c (strip c s) = strip c s.
Proof. apply strip_fixed; [apply strip_not_starts|apply strip_not_ends]. Qed.

Lemma strip_leading c s : strip c (String c s) = strip c s.
Proof. unfold strip. by rewrite lstrip_cons_same. Qed.

Lemma strip_trailing c s : strip c (s +:+ String c "") = strip c s.
Proof.
  unfold strip. destruct (lstrip_split c s) as [k Hk].
  assert (Hl : lstrip c (s +:+ String c "") = lstrip c (lstrip c s +:+ String c "")).
  { rewrite Hk at 1. by rewrite append_assoc_s, lstrip_run_of. }
  rewrite Hl. pose proof (lstrip_not_starts c s) as Hns.
  destruct (lstrip c s) as [|a l] eqn:EL.
  - rewrite append_nil_l, lstrip_cons_same. reflexivity.
  - rewrite (lstrip_id c (String a l +:+ String c ""))
      by (rewrite append_cons; exact Hns).
    rewrite rev_string_append. change (rev_string (String c "") "") with (String c "").
    by rewrite append_cons, append_nil_l, lstrip_cons_same.
Qed.

Lemma format_join (a b : string) : Py.format "{}/{}" [a; b] = a +:+ "/" +:+ b.
Proof. cbn. by rewrite append_empty_r. Qed.

(** The address, through the stripped endpoint and version only. *)
Lemma request_url_normal cs endpoint version :
  request_url cs endpoint version
  = Py.format "{}/{}"
      [ strip "/" (or_str (get_server_config cs !! "base_serving_url")
                          _default_serving_base_url);
        strip "/" (match strip "/" (default "" version) with
                   | EmptyString => strip "/" endpoint
                   | v => strip "/" endpoint +:+ "/" +:+ v
                   end) ].
Proof.
  unfold request_url. do 3 f_equal.
  destruct version as [[|a rest]|]; [reflexivity| |reflexivity].
  change (default "" (Some (String a rest))) with (String a rest).
  rewrite format_join.
  destruct (strip "/" (String a rest)) as [|b v] eqn:Ev; [|reflexivity].
  change (strip "/" endpoint +:+ "/" +:+ "") with (strip "/" endpoint +:+ String "/" "").
  by rewrite strip_trailing.
Qed.

(** X5: the address [send_request] posts to depends on the endpoint and on
    the version only up to slashes at their ends; no version, an empty one
    and one made of slashes give the same address. *)
Theorem request_url_up_to_slashes (cs : class_state)
    (endpoint1 endpoint2 : string) (version1 version2 : option string) :
  strip "/" endpoint1 = strip "/" endpoint2 ->
  strip "/" (default "" version1) = strip "/" (default "" version2) ->
  request_url cs endpoint1 version1 = request_url cs endpoint2 version2.
Proof.
  intros He Hv. rewrite !request_url_normal. by rewrite He, Hv.
Qed.

Lemma request_url_up_to_slashes_witness :
  request_url class_init "/test_model/" (Some "/") = request_url class_init "test_model" None
  /\ request_url class_init "//test_model" (Some "1/")
     = request_url class_init "test_model/" (Some "/1").
Proof.
  split.
  - apply (request_url_up_to_slashes class_init "/test_model/" "test_model"
             (Some "/") None); reflexivity.
  - apply (request_url_up_to_slashes class_init "//test_model" "test_model/"
             (Some "1/") (Some "/1")); reflexivity.
Defined.

Lemma strip_join c a b :
  a <> "" -> b <> "" -> ~ starts_with c a -> ~ ends_with c b ->
  strip c (a +:+ String c "" +:+ b) = a +:+ String c "" +:+ b.
Proof.
  intros Ha Hb Hsa Heb. apply strip_fixed.
  - by rewrite starts_with_append.
  - unfold ends_with. rewrite !rev_string_append.
    rewrite append_assoc_s, starts_with_append; [exact Heb|].
    intros He. by apply rev_string_empty in He.
Qed.

(** X6: with a configured, non-empty [base_serving_url] the address starts
    with that URL without its outer slashes, otherwise with
    [http://127.0.0.1:8080/serve]; then come, one slash before each, the
    endpoint and (when both are not empty once stripped) the version,
    without their outer slashes. *)
Theorem request_url_shape (cs : class_state) (endpoint : string) (version : string) :
  let base :=
    match get_server_config cs !! "base_serving_url" with
    | Some (String a rest) => strip "/" (String a rest)
    | _ => "http://127.0.0.1:8080/serve"
    end in
  request_url cs endpoint None = base +:+ "/" +:+ strip "/" endpoint
  /\ (strip "/" endpoint <> "" -> strip "/" version <> "" ->
      request_url cs endpoint (Some version)
      = base +:+ "/" +:+ strip "/" endpoint +:+ "/" +:+ strip "/" version).
Proof.
  cbn zeta.
  assert (Hbase : strip "/" (or_str (get_server_config cs !! "base_serving_url")
                                    _default_serving_base_url)
                  = match get_server_config cs !! "base_serving_url" with
                    | Some (String a rest) => strip "/" (String a rest)
                    | _ => "http://127.0.0.1:8080/serve"
                    end).
  { destruct (get_server_config cs !! "base_serving_url") as [[|a rest]|]; reflexivity. }
  rewrite <- Hbase. split.
  - unfold request_url. by rewrite format_join, strip_idempotent.
  - intros He Hv. rewrite request_url_normal, format_join.
    change (default "" (Some version)) with version.
    destruct (strip "/" version) as [|b v] eqn:Ev; [done|].
    rewrite <- Ev.
    rewrite (strip_join "/" (strip "/" endpoint) (strip "/" version)); try done.
    + by rewrite Ev.
    + apply strip_not_starts.
    + apply strip_not_ends.
Qed.

Lemma request_url_shape_witness :
  request_url (set_server_config class_init {[ "base_serving_url" := "http://gw:9090/" ]})
    "/test_model/" (Some "2")
  = "http://gw:9090/test_model/2".
Proof.
  rewrite (proj2 (request_url_shape
                    (set_server_config class_init {[ "base_serving_url" := "http://gw:9090/" ]})
                    "/test_model/" "2"))
    by (vm_compute; discriminate).
  vm_compute. reflexivity.
Defined.

End UrlFacts.

(** ** Construction and the plugin: further theorems *)

Module LoaderFacts.
Import Numpy Serving Examples Samples Adapters ServingFacts.

Local Open Scope Z_scope.
Local Open Scope list_scope.




(** X8: when the code is fetched, imported and instantiated, the dispatcher
    gets the new plugin, whose class carries the gateway's [send_request]
    in place of whatever it defined under that name.  If the plugin has no
    callable [load], the model file is not asked for and [_model] is left
    as it was; if it has one, the model file is asked for once, [load] is
    called once with its path, and what it returns becomes [_model]. *)
Theorem plugin_is_loaded (cs : class_state) (w : world) (self : BasePreprocessRequest)
    (name : string) (task : Task) (path : string)
    (m : gmap string pyclass) (c : pyclass) (inst : gmap string attr) :
  outcome (local_preprocess_path w name task) = Py.Return path ->
  exec_module w path = Py.Return m ->
  m !! "Preprocess" = Some c ->
  outcome (cls_new c) = Py.Return inst ->
  let p := {| class_attrs := <["send_request" := send_request_method w]> (cls_dict c);
              inst_attrs := inst |} in
  let before := trace (local_preprocess_path w name task)
                ++ [EvExecModule path] ++ trace (cls_new c) in
  class_attrs p !! "send_request" = Some (send_request_method w)
  /\ (callable (getattr p "load") = false ->
      _instantiate_custom_preprocess_cls cs w self name task
      = IO (Py.Return {| model_endpoint := model_endpoint self; _preprocess := Some p;
                         _model := _model self; _timeout := _timeout self |})
           before)
  /\ (forall f file handle,
        getattr p "load" = Some (Method f) ->
        model_get_local_copy w (model_id (model_endpoint self)) = Py.Return file ->
        outcome (f cs [VStr file]) = Py.Return handle ->
        _instantiate_custom_preprocess_cls cs w self name task
        = IO (Py.Return {| model_endpoint := model_endpoint self; _preprocess := Some p;
                           _model := handle; _timeout := _timeout self |})
             (before ++ [EvModelLocalCopy (model_id (model_endpoint self))]
                     ++ trace (f cs [VStr file]))).
Proof.
  intros Hpath Hexec Hc Hnew p before.
  split; [apply lookup_insert_eq|].
  split.
  - intros Hload.
    unfold _instantiate_custom_preprocess_cls, mbind, io_bind, bind, call.
    rewrite Hpath. cbn [outcome trace]. rewrite Hexec. cbn [outcome trace].
    rewrite Hc. cbn [outcome trace ret cls_new cls_dict]. rewrite Hnew. cbn [outcome trace].
    fold p. rewrite Hload. cbn [outcome trace ret].
    f_equal. unfold before. rewrite ?app_nil_r, <- ?app_assoc. reflexivity.
  - intros f file handle Hload Hfile Hcall.
    unfold _instantiate_custom_preprocess_cls, _get_local_model_file, call_method,
      mbind, io_bind, bind, call.
    rewrite Hpath. cbn [outcome trace]. rewrite Hexec. cbn [outcome trace].
    rewrite Hc. cbn [outcome trace ret cls_new cls_dict]. rewrite Hnew. cbn [outcome trace].
    fold p. rewrite Hload. cbn [callable model_endpoint outcome trace].
    rewrite Hfile. cbn [outcome trace]. rewrite Hcall. cbn [outcome trace ret].
    f_equal. unfold before. rewrite ?app_nil_r, <- ?app_assoc. reflexivity.
Qed.

Lemma plugin_is_loaded_witness :
  exists self,
    outcome (_instantiate_custom_preprocess_cls class_init world_up
               (new_instance class_init world_up endpoint_py)
               "py_code_test_model" (task_with "abc"))
    = Py.Return self
    /\ _model self = VObject "model"
    /\ _timeout self = Some 480.
Proof.
  eexists. split.
  - rewrite (proj2 (proj2 (plugin_is_loaded class_init world_up
                            (new_instance class_init world_up endpoint_py)
                            "py_code_test_model" (task_with "abc")
                            "/cache/py_code_test_model"
                            {[ "Preprocess" := loader_class ]} loader_class ∅
                            eq_refl eq_refl eq_refl eq_refl))
               (fun _ _ => ret (VObject "model")) "/models/m1" (VObject "model")
               eq_refl eq_refl eq_refl).
    reflexivity.
  - split; reflexivity.
Defined.

(** X9: the stages test for the attribute, not for a callable: a plugin
    attribute named [preprocess], [postprocess] or [process] that is a plain
    value makes the stage raise a [TypeError], and nothing is called or
    sent. *)
Theorem uncallable_stage_attribute (cs : class_state) (w : world)
    (self : BasePreprocessRequest) (p : plugin) (v x sink : value) :
  _preprocess self = Some p ->
  (getattr p "preprocess" = Some (Attr v) ->
     exists msg, preprocess cs self x sink = raise (Py.TypeError msg))
  /\ (getattr p "postprocess" = Some (Attr v) ->
        exists msg, postprocess cs self x sink = raise (Py.TypeError msg))
  /\ (getattr p "process" = Some (Attr v) ->
        exists msg, triton_process cs w self x sink = raise (Py.TypeError msg)
                    /\ custom_process cs self x sink = raise (Py.TypeError msg)).
Proof.
  intros Hp.
  assert (Hwith : forall name, getattr p name = Some (Attr v) -> plugin_with self name = Some p).
  { intros name Hget. unfold plugin_with, hasattr. rewrite Hp, Hget.
    by rewrite bool_decide_eq_true_2 by by eexists. }
  repeat split; intros Hget; eexists.
  - unfold preprocess, call_method. by rewrite (Hwith _ Hget), Hget.
  - unfold postprocess, call_method. by rewrite (Hwith _ Hget), Hget.
  - unfold triton_process, custom_process, call_method. by rewrite (Hwith _ Hget), Hget.
Qed.

Lemma uncallable_stage_attribute_witness :
  exists msg,
    preprocess class_init with_value_attribute (VDict []) VNone = raise (Py.TypeError msg).
Proof.
  apply (proj1 (uncallable_stage_attribute class_init world_up with_value_attribute
                  _ (VInt 3) (VDict []) VNone eq_refl)).
  reflexivity.
Defined.

Lemma round_double_short m e : 0 <= m < 2 ^ 53 -> round_double m e = (m, e).
Proof.
  intros [Hnn Hlt]. unfold round_double. rewrite Z.abs_eq by exact Hnn.
  destruct (Z.eqb_spec m 0) as [->|Hne]; [reflexivity|].
  assert (Z.log2 m < 53) by (apply Z.log2_lt_pow2; lia).
  replace (Z.log2 m + 1 <=? 53) with true by (symmetry; apply Z.leb_le; lia).
  reflexivity.
Qed.

(** Rounding a number that is not negative: [s] low bits are given up, and
    the [q'] that is kept is within half a unit of the last place. *)
Lemma round_double_nonneg n e :
  0 <= n ->
  exists s q',
    round_double n e = (q', e + s)
    /\ 0 <= s
    /\ (s = 0 \/ 2 ^ (52 + s) <= n)
    /\ n < 2 ^ s * q' + 2 ^ s
    /\ 2 * (2 ^ s * q') <= 2 * n + 2 ^ s.
Proof.
  intros Hnn. unfold round_double. rewrite Z.abs_eq by exact Hnn.
  destruct (Z.eqb_spec n 0) as [->|Hne].
  - exists 0, 0. cbn. rewrite Z.add_0_r. repeat split; lia.
  - destruct (Z.leb_spec (Z.log2 n + 1) 53) as [Hle|Hgt].
    + exists 0, n. rewrite Z.add_0_r. change (2 ^ 0) with 1. repeat split; lia.
    + set (s := Z.log2 n + 1 - 53).
      assert (Hs : 0 < s) by (unfold s; lia).
      assert (HP : 0 < 2 ^ s) by (apply Z.pow_pos_nonneg; lia).
      assert (Hhalf : 2 ^ s = 2 * 2 ^ (s - 1)).
      { rewrite <- Z.pow_succ_r by lia. f_equal. lia. }
      pose proof (Z.div_mod n (2 ^ s) ltac:(lia)) as Hdm.
      pose proof (Z.mod_pos_bound n (2 ^ s) HP) as Hmod.
      rewrite Z.sgn_pos by lia. rewrite Z.mul_1_l.
      eexists s, _. split; [reflexivity|].
      split; [lia|]. split.
      { right. replace (52 + s) with (Z.log2 n) by (unfold s; lia).
        apply Z.log2_spec. lia. }
      destruct (Z.ltb_spec (2 ^ (s - 1)) (n mod 2 ^ s)) as [Hup|Hdown]; cbn [orb].
      * split; lia.
      * destruct (Z.eqb_spec (n mod 2 ^ s) (2 ^ (s - 1))) as [Heq|Hneq]; cbn [andb].
        -- destruct (Z.odd (n / 2 ^ s)); split; lia.
        -- split; lia.
Qed.

(** Below 2^50 the two roundings, of the literal [0.8] and of the product,
    do not reach the whole seconds. *)
Lemma timeout_of_double T :
  0 <= T < 2 ^ 50 ->
  let d := double_to_int (double_mul (round_double T 0) double_0_8) in
  10 * d <= 8 * T < 10 * d + 10.
Proof.
  intros [Hnn Hlt]. cbn zeta.
  rewrite round_double_short by (split; [lia|]; eapply Z.lt_trans; [exact Hlt|reflexivity]).
  unfold double_mul, double_0_8. cbn [fst snd].
  set (c := 7205759403792794).
  destruct (round_double_nonneg (T * c) (0 + -53) ltac:(unfold c; lia))
    as (s & q' & -> & Hs & Hbig & Hlow & Hhigh).
  assert (Hs50 : s <= 50).
  { destruct Hbig as [->|Hbig]; [lia|].
    assert (Hn : T * c < 2 ^ 103).
    { replace (2 ^ 103) with (2 ^ 50 * 2 ^ 53) by reflexivity. unfold c.
      apply Z.le_lt_trans with (T * 2 ^ 53); [apply Z.mul_le_mono_nonneg_l; lia|].
      apply Z.mul_lt_mono_pos_r; [reflexivity|exact Hlt]. }
    assert (Hpow : 2 ^ (52 + s) < 2 ^ 103) by lia.
    apply Z.pow_lt_mono_r_iff in Hpow; lia. }
  unfold double_to_int. cbn [fst snd].
  replace (0 <=? 0 + -53 + s) with false by (symmetry; apply Z.leb_gt; lia).
  replace (- (0 + -53 + s)) with (53 - s) by lia.
  set (P := 2 ^ s) in *. set (R := 2 ^ (53 - s)).
  assert (HP : 0 < P) by (apply Z.pow_pos_nonneg; lia).
  assert (HR : 0 < R) by (apply Z.pow_pos_nonneg; lia).
  assert (HD : P * R = 2 ^ 53).
  { unfold P, R. rewrite <- Z.pow_add_r by lia. f_equal. lia. }
  assert (HP50 : P <= 2 ^ 50) by (apply Z.pow_le_mono_r; lia).
  assert (Hq : 0 <= q').
  { assert (0 < P * (q' + 1)) by (unfold c in Hlow; lia).
    assert (0 < q' + 1) by (apply (Z.mul_pos_cancel_l P); lia). lia. }
  rewrite Z.quot_div_nonneg by lia.
  set (d := q' / R).
  pose proof (Z.div_mod q' R ltac:(lia)) as Hdm. fold d in Hdm.
  pose proof (Z.mod_pos_bound q' R HR) as Hmod.
  set (D := 2 ^ 53) in *.
  assert (HD' : D = 9007199254740992) by reflexivity.
  assert (Hc : 5 * c = 4 * D + 2) by reflexivity.
  assert (E1 : P * q' = D * d + P * (q' mod R)).
  { rewrite Hdm at 1. rewrite Z.mul_add_distr_l, Z.mul_assoc, HD. reflexivity. }
  assert (E2 : 0 <= P * (q' mod R) <= D - P).
  { split; [apply Z.mul_nonneg_nonneg; lia|].
    rewrite <- HD. replace (P * R - P) with (P * (R - 1)) by lia.
    apply Z.mul_le_mono_nonneg_l; lia. }
  assert (E3 : 5 * (T * c) = 4 * (T * D) + 2 * T) by lia.
  split.
  - assert (10 * (D * d) < (8 * T + 2) * D) by lia.
    assert (10 * d < 8 * T + 2) by (apply (Z.mul_lt_mono_pos_r D); lia).
    lia.
  - assert (4 * T * D < 5 * (d + 1) * D) by lia.
    assert (4 * T < 5 * (d + 1)) by (apply (Z.mul_lt_mono_pos_r D); lia).
    lia.
Qed.

(** X10: the timeout a dispatcher derives is the serving timeout times
    eight tenths in double precision, cut to whole seconds.  For a serving
    timeout of whole seconds from 0 to below 2^50 the rounding does not
    show: the result is never above four fifths of the serving timeout and
    less than a second below; with the variable unset it is 480. *)
Theorem derived_timeout_is_four_fifths (w : world) :
  let serving := default 600 (environ_serving_timeout w) in
  0 <= serving < 2 ^ 50 ->
  10 * derive_timeout w <= 8 * serving < 10 * derive_timeout w + 10
  /\ derive_timeout w = Z.quot (serving * 8) 10
  /\ 0 <= derive_timeout w <= serving
  /\ (environ_serving_timeout w = None -> derive_timeout w = 480).
Proof.
  intros serving Hrange. unfold derive_timeout. fold serving.
  pose proof (timeout_of_double serving Hrange) as Hd. cbn zeta in Hd.
  set (d := double_to_int _) in *.
  split; [exact Hd|]. split; [|split; [lia|]].
  - rewrite Z.quot_div_nonneg by lia. apply (Z.div_unique _ _ _ (serving * 8 - 10 * d)); lia.
  - intros Hunset. unfold serving in Hd. rewrite Hunset in Hd. cbn [default] in Hd.
    change (Datatypes.id 600) with 600 in Hd. lia.
Qed.

Lemma derived_timeout_is_four_fifths_witness :
  10 * derive_timeout (with_environ world_up (Some 7)) <= 8 * 7
  /\ derive_timeout (with_environ world_up (Some 7)) = 5.
Proof.
  pose proof (derived_timeout_is_four_fifths (with_environ world_up (Some 7))
                ltac:(cbn; lia)) as (H & _ & _).
  split; [exact (proj1 H)|reflexivity].
Defined.

(** Where the rounding shows: at a serving timeout of 2^53 seconds the
    derived timeout is above four fifths of it. *)
Example derived_timeout_beyond_the_range :
  derive_timeout (with_environ world_up (Some (2 ^ 53))) = 7205759403792794
  /\ Z.quot (2 ^ 53 * 8) 10 = 7205759403792793.
Proof. split; vm_compute; reflexivity. Qed.

End LoaderFacts.

(** ** Remote tensor server adapter: further theorems *)

Module TritonMore.
Import Numpy Serving Examples Samples Text NumpyFacts ServingFacts TritonFacts UrlFacts.

Local Open Scope Z_scope.
Local Open Scope list_scope.

Lemma format_misconfigured (address cause : string) :
  Py.format "External Triton gRPC server misconfigured [{}]: {}" [address; cause]
  = "External Triton gRPC server misconfigured [" +:+ address +:+ "]: " +:+ cause.
Proof. cbn. rewrite append_empty_r. reflexivity. Qed.

(** X11: when the channel to the tensor server cannot be opened, [process]
    raises a [ValueError] that names the address and carries the text of
    the cause; the data is not converted and no request is sent. *)
Theorem channel_failure_is_wrapped (cs : class_state) (w : world)
    (self : BasePreprocessRequest) (data sink : value) (ex : Py.exn) :
  plugin_with self "process" = None ->
  insecure_channel w (triton_server_address cs) = Py.Raise ex ->
  triton_process cs w self data sink
  = IO (Py.Raise (Py.ValueError ("External Triton gRPC server misconfigured ["
                                 +:+ triton_server_address cs +:+ "]: " +:+ Py.str ex)))
       [EvInsecureChannel (triton_server_address cs)].
Proof.
  intros Hplugin Hchan. rewrite (triton_process_without_override _ _ _ _ _ Hplugin).
  pose proof (triton_server_address_not_empty cs) as Haddr.
  unfold build_request, mbind, io_bind, bind, try_except, call, raise.
  destruct (triton_server_address cs) as [|c rest] eqn:Ea; [done|].
  cbn [outcome trace]. rewrite Hchan. cbn [outcome trace].
  by rewrite format_misconfigured, app_nil_r.
Qed.

Lemma channel_failure_is_wrapped_witness :
  outcome (triton_process class_init world_no_channel (plain endpoint_f32)
             (VArray array_2x3) VNone)
  = Py.Raise (Py.ValueError
                "External Triton gRPC server misconfigured [127.0.0.1:8001]: no route").
Proof.
  rewrite (channel_failure_is_wrapped class_init world_no_channel (plain endpoint_f32)
             (VArray array_2x3) VNone (Py.OtherError "RpcError" "no route")
             eq_refl eq_refl).
  reflexivity.
Defined.

(** The trace of [process] once the request is built. *)
Lemma triton_process_trace cs w self data sink request :
  plugin_with self "process" = None ->
  outcome (build_request cs w self data) = Py.Return request ->
  trace (triton_process cs w self data sink)
  = trace (build_request cs w self data)
    ++ [EvModelInfer request "Gzip" (self_timeout cs self)].
Proof.
  intros Hplugin Hbuild. rewrite (triton_process_without_override _ _ _ _ _ Hplugin).
  rewrite (trace_bind_return _ _ _ Hbuild). f_equal.
  unfold mbind, io_bind, bind, call, lift. cbn [outcome trace].
  destruct (ModelInfer w request); reflexivity.
Qed.

(** Building the request makes no call that takes a timeout. *)
Lemma build_request_no_timeouts cs w self data :
  call_timeouts (trace (build_request cs w self data)) = [].
Proof.
  unfold build_request, mbind, io_bind, bind, try_except, call, lift, raise, ret.
  destruct (triton_server_address cs) as [|c rest]; [reflexivity|].
  cbn [outcome trace].
  destruct (insecure_channel w (String c rest)) as [[]|e]; cbn [outcome trace]; [|reflexivity].
  destruct (np_array w data _) as [input_data|e]; cbn [outcome trace]; [|reflexivity].
  destruct (np_to_triton_dtype w _) as [datatype|e]; cbn [outcome trace]; [|reflexivity].
  destruct (dict_get _content_lookup _) as [input_func|]; [|reflexivity].
  cbn [outcome trace]. destruct (slice_assign input_func _); reflexivity.
Qed.

(** X21: [process], when the plugin does not override it, begins by
    opening the channel, before the data is looked at: to the configured
    [triton_grpc_server] when that is set and not empty, to [127.0.0.1:8001]
    otherwise.  There is thus always an address, and the error for a server
    that is not configured is never raised by this code. *)
Theorem channel_is_opened_first (cs : class_state) (w : world)
    (self : BasePreprocessRequest) (data sink : value) :
  plugin_with self "process" = None ->
  let address :=
    match cls_server_config cs !! "triton_grpc_server" with
    | Some (String a rest) => String a rest
    | _ => "127.0.0.1:8001"
    end in
  exists rest, trace (triton_process cs w self data sink) = EvInsecureChannel address :: rest.
Proof.
  intros Hplugin address. rewrite (triton_process_without_override _ _ _ _ _ Hplugin).
  assert (Haddr : triton_server_address cs = address).
  { unfold triton_server_address, or_str, address.
    destruct (cls_server_config cs !! "triton_grpc_server") as [[|a rest]|]; reflexivity. }
  assert (Hne : address <> "").
  { rewrite <- Haddr. apply triton_server_address_not_empty. }
  unfold build_request. rewrite Haddr.
  destruct address as [|c tail] eqn:Ea; [done|].
  unfold mbind, io_bind, bind, try_except, call, lift, raise, ret. cbn [outcome trace].
  destruct (insecure_channel w (String c tail)) as [[]|e]; cbn [outcome trace];
    [|by eexists].
  destruct (np_array w data _) as [input_data|e]; cbn [outcome trace]; [|by eexists].
  destruct (np_to_triton_dtype w _) as [datatype|e]; cbn [outcome trace]; [|by eexists].
  destruct (dict_get _content_lookup _) as [input_func|]; cbn [outcome trace];
    [|by eexists].
  destruct (slice_assign input_func _) as [contents|e]; cbn [outcome trace]; [|by eexists].
  destruct (ModelInfer w _) as [response|e]; cbn [outcome trace]; by eexists.
Qed.

Lemma channel_is_opened_first_witness :
  exists rest,
    trace (triton_process
             (set_server_config class_init {[ "triton_grpc_server" := "triton:9001" ]})
             world_up (plain endpoint_i16) (VStr "not an array") VNone)
    = EvInsecureChannel "triton:9001" :: rest.
Proof.
  destruct (channel_is_opened_first
              (set_server_config class_init {[ "triton_grpc_server" := "triton:9001" ]})
              world_up (plain endpoint_i16) (VStr "not an array") VNone eq_refl)
    as [rest Hrest].
  exists rest. rewrite Hrest. reflexivity.
Defined.

(** X12: once the request is built it is sent exactly once, compressed
    with gzip and with the timeout read through the dispatcher, whatever
    the server does with it; an exception of the server call reaches the
    caller as it is, and there is no second attempt. *)
Theorem request_is_sent_once (cs : class_state) (w : world)
    (self : BasePreprocessRequest) (data sink : value) (request : ModelInferRequest) :
  plugin_with self "process" = None ->
  outcome (build_request cs w self data) = Py.Return request ->
  trace (triton_process cs w self data sink)
  = trace (build_request cs w self data)
    ++ [EvModelInfer request "Gzip" (self_timeout cs self)]
  /\ sent_requests (trace (triton_process cs w self data sink)) = [request]
  /\ forall ex, ModelInfer w request = Py.Raise ex ->
       outcome (triton_process cs w self data sink) = Py.Raise ex.
Proof.
  intros Hplugin Hbuild.
  pose proof (triton_process_trace cs w self data sink request Hplugin Hbuild) as Htrace.
  split; [exact Htrace|]. split.
  - rewrite Htrace. unfold sent_requests. rewrite omap_app.
    fold (sent_requests (trace (build_request cs w self data))).
    by rewrite build_request_sends_nothing.
  - intros ex Hex. rewrite (triton_process_without_override _ _ _ _ _ Hplugin).
    rewrite (outcome_bind_return _ _ _ Hbuild).
    apply outcome_bind_raise. exact Hex.
Qed.

Lemma request_is_sent_once_witness :
  call_timeouts
    (trace (triton_process class_init
              world_server_late
              (plain endpoint_f32) (VArray array_2x3) VNone))
  = [Some 480]
  /\ outcome (triton_process class_init
                world_server_late
                (plain endpoint_f32) (VArray array_2x3) VNone)
     = Py.Raise (Py.OtherError "RpcError" "deadline exceeded").
Proof.
  destruct (request_is_sent_once class_init
              world_server_late
              (plain endpoint_f32) (VArray array_2x3) VNone _ eq_refl eq_refl)
    as (Htrace & _ & Hraise).
  split; [rewrite Htrace; reflexivity|].
  apply Hraise. reflexivity.
Defined.

(** X13: when the channel opens, the data converts, the element type has
    a name and an entry in the table, and the field of that entry takes the
    values, the request names the model by serving URL and version joined
    with a slash and freed of outer slashes (the URL alone when the version
    is empty), asks for version "1", and has one input and one requested
    output under the endpoint's names; the input carries the endpoint's
    configured shape and the element type name, whatever the shape of the
    data is, and the values in the one field.  When the field refuses a
    value, no request is built: its exception is what [process] raises. *)
Theorem request_envelope (cs : class_state) (w : world) (self : BasePreprocessRequest)
    (data : value) (input_data : ndarray) (datatype input_func : string) :
  let ep := model_endpoint self in
  insecure_channel w (triton_server_address cs) = Py.Return tt ->
  np_array w data (input_type ep) = Py.Return input_data ->
  np_to_triton_dtype w (dtype_type (input_type ep)) = Py.Return datatype ->
  dict_get _content_lookup (dtype_type (input_type ep)) = Some input_func ->
  (forall contents,
     slice_assign input_func (nd_data input_data) = Py.Return contents ->
     exists request input0,
       outcome (build_request cs w self data) = Py.Return request
       /\ model_name request = strip "/" (serving_url ep +:+ "/" +:+ version ep)
       /\ model_version request = "1"
       /\ inputs request = [input0]
       /\ in_name input0 = input_name ep
       /\ in_datatype input0 = datatype
       /\ in_shape input0 = input_size ep
       /\ in_contents input0 = {[ input_func := contents ]}
       /\ outputs request = [ {| out_name := output_name ep |} ]
       /\ ~ starts_with "/" (model_name request)
       /\ ~ ends_with "/" (model_name request)
       /\ (version ep = "" -> model_name request = strip "/" (serving_url ep)))
  /\ (forall e sink,
        slice_assign input_func (nd_data input_data) = Py.Raise e ->
        outcome (build_request cs w self data) = Py.Raise e
        /\ (plugin_with self "process" = None ->
            outcome (triton_process cs w self data sink) = Py.Raise e
            /\ sent_requests (trace (triton_process cs w self data sink)) = [])).
Proof.
  intros ep Hchan Harr Hdt Hentry.
  pose proof (build_request_steps cs w self data input_data datatype Hchan Harr Hdt) as Hb.
  cbn zeta in Hb. fold ep in Hb. rewrite Hentry in Hb.
  split.
  - intros contents Hfit. rewrite Hfit in Hb.
    eexists. eexists. split; [by rewrite Hb|].
    cbn [model_version inputs outputs model_name in_name in_datatype in_shape in_contents].
    rewrite format_join.
    repeat split.
    + apply strip_not_starts.
    + apply strip_not_ends.
    + intros Hv. rewrite Hv.
      change (serving_url ep +:+ "/" +:+ "") with (serving_url ep +:+ String "/" "").
      apply strip_trailing.
  - intros e sink Hrefused. rewrite Hrefused in Hb.
    assert (Hout : outcome (build_request cs w self data) = Py.Raise e) by by rewrite Hb.
    split; [exact Hout|]. intros Hplugin.
    rewrite (triton_process_without_override _ _ _ _ _ Hplugin).
    split; [by apply outcome_bind_raise|].
    rewrite (bind_raise _ _ _ Hout). cbn [trace]. apply build_request_sends_nothing.
Qed.

Lemma request_envelope_witness :
  (exists request input0,
     outcome (build_request class_init world_up (plain endpoint_f32) (VArray array_2x3))
     = Py.Return request
     /\ model_name request = "test_model/1"
     /\ inputs request = [input0]
     /\ in_shape input0 = [2; 3]
     /\ in_contents input0 = {[ "fp32_contents" := nd_data array_2x3 ]})
  /\ (exists request,
        outcome (build_request class_init world_up (plain endpoint_unversioned)
                   (VArray array_2x3))
        = Py.Return request
        /\ model_name request = "test_model")
  /\ outcome (triton_process class_init world_up (plain (endpoint_of np_uint64))
                (VArray array_u64_wide) VNone)
     = Py.Raise (Py.ValueError "Value out of range: 1099511627776").
Proof.
  split; [|split].
  - destruct (proj1 (request_envelope class_init world_up (plain endpoint_f32)
                       (VArray array_2x3) array_2x3 "FP32" "fp32_contents"
                       eq_refl eq_refl eq_refl eq_refl)
                (nd_data array_2x3) eq_refl)
      as (request & input0 & Hreq & Hname & _ & Hin & _ & _ & Hshape & Hfield & _).
    exists request, input0. split; [exact Hreq|].
    split; [rewrite Hname; reflexivity|].
    split; [exact Hin|]. split; [exact Hshape|exact Hfield].
  - destruct (proj1 (request_envelope class_init world_up (plain endpoint_unversioned)
                       (VArray array_2x3) array_2x3 "FP32" "fp32_contents"
                       eq_refl eq_refl eq_refl eq_refl)
                (nd_data array_2x3) eq_refl)
      as (request & input0 & Hreq & _ & _ & _ & _ & _ & _ & _ & _ & _ & _ & Hname).
    exists request. split; [exact Hreq|].
    rewrite (Hname eq_refl). reflexivity.
  - apply (proj2 (request_envelope class_init world_up (plain (endpoint_of np_uint64))
                    (VArray array_u64_wide) array_u64_wide "UINT64" "uint_contents"
                    eq_refl eq_refl eq_refl eq_refl)
             (Py.ValueError "Value out of range: 1099511627776") VNone eq_refl).
    reflexivity.
Defined.

Lemma decode_outputs_short dt raw : forall outs (index : nat) acc,
  (index <= length raw < index + length outs)%nat ->
  exists e, decode_outputs dt outs raw index acc = Py.Raise e.
Proof.
  induction outs as [|output outs IH]; intros index acc Hlen; [cbn in Hlen; lia|].
  cbn [decode_outputs].
  destruct (raw !! index) as [buf|] eqn:Hbuf; [|by eexists].
  cbn. destruct (decode_output dt buf (o_shape output)) as [a|e]; [|by eexists].
  cbn. apply IH. apply lookup_lt_Some in Hbuf. cbn [length] in Hlen. lia.
Qed.

(** X14: a response without outputs gives the empty list, and a response
    with fewer raw buffers than outputs makes [process] raise instead of
    returning the outputs it could decode. *)
Theorem decode_response_edges (self : BasePreprocessRequest)
    (response : ModelInferResponse) :
  (resp_outputs response = [] -> decode_response self response = Py.Return (VList []))
  /\ ((length (raw_output_contents response) < length (resp_outputs response))%nat ->
      exists e, decode_response self response = Py.Raise e).
Proof.
  unfold decode_response. split.
  - intros Hnone. rewrite Hnone. reflexivity.
  - intros Hshort.
    destruct (decode_outputs_short (output_type (model_endpoint self))
                (raw_output_contents response) (resp_outputs response) 0%nat []
                ltac:(lia)) as [e He].
    rewrite He. by exists e.
Qed.

Lemma decode_response_edges_witness :
  decode_response (plain endpoint_f32) {| resp_outputs := []; raw_output_contents := [] |}
  = Py.Return (VList [])
  /\ exists e,
       decode_response (plain endpoint_f32)
         {| resp_outputs := [ {| o_name := "a"; o_shape := [1] |};
                              {| o_name := "b"; o_shape := [1] |} ];
            raw_output_contents := [ to_bytes np_float32 1065353216 ] |}
       = Py.Raise e.
Proof.
  split.
  - apply (proj1 (decode_response_edges (plain endpoint_f32)
                    {| resp_outputs := []; raw_output_contents := [] |})).
    reflexivity.
  - apply (proj2 (decode_response_edges (plain endpoint_f32)
                    {| resp_outputs := [ {| o_name := "a"; o_shape := [1] |};
                                         {| o_name := "b"; o_shape := [1] |} ];
                       raw_output_contents := [ to_bytes np_float32 1065353216 ] |})).
    cbn. lia.
Defined.

(** *** What decoding gives *)

Lemma le_decode_range bs : 0 <= le_decode bs < 256 ^ Z.of_nat (length bs).
Proof.
  induction bs as [|b bs IH]; [cbn; lia|].
  cbn [le_decode length]. rewrite Nat2Z.inj_succ, Z.pow_succ_r by lia.
  pose proof (Z_of_byte_range b). lia.
Qed.

Lemma of_bytes_in_range dt bs : length bs = itemsize dt -> in_range dt (of_bytes dt bs).
Proof.
  intros Hlen. pose proof (le_decode_range bs) as Hr.
  rewrite Hlen, <- pow_bits in Hr.
  assert (Hhalf : 2 ^ bits dt = 2 * 2 ^ (bits dt - 1)).
  { rewrite <- Z.pow_succ_r by (pose proof (bits_pos dt); lia). f_equal. lia. }
  unfold in_range, of_bytes. destruct (dtype_kind dt).
  - destruct (Z.ltb_spec (le_decode bs) (2 ^ (bits dt - 1))); lia.
  - lia.
  - destruct (Z.eqb_spec (le_decode bs) 0); lia.
  - lia.
  - lia.
Qed.

Lemma chunks_lengths {A} (w : nat) : forall (n : nat) (l : list A),
  (n * w <= length l)%nat -> Forall (fun ch => length ch = w) (chunks w n l).
Proof.
  induction n as [|n IH]; intros l Hlen; [constructor|].
  cbn [chunks]. constructor.
  - rewrite length_take. lia.
  - apply IH. rewrite length_drop. lia.
Qed.

Lemma buffer_elements_in_range dt buf : Forall (in_range dt) (buffer_elements dt buf).
Proof.
  unfold buffer_elements. apply Forall_map.
  eapply Forall_impl.
  - apply chunks_lengths. pose proof (Nat.Div0.mul_div_le (length buf) (itemsize dt)). lia.
  - intros ch Hch. by apply of_bytes_in_range.
Qed.

Lemma zero_in_range dt : in_range dt 0.
Proof.
  unfold in_range. pose proof (bits_pos dt) as Hb.
  assert (0 < 2 ^ (bits dt - 1)) by (apply Z.pow_pos_nonneg; lia).
  assert (0 < 2 ^ bits dt) by (apply Z.pow_pos_nonneg; lia).
  destruct (dtype_kind dt); lia.
Qed.

(** X15: every output that decodes is a well-formed array of the
    endpoint's output element type: no dimension is negative, there are as
    many elements as the shape asks for, and each element is a value of
    that type; this holds for any buffer that is a whole number of elements
    and any declared shape without a negative dimension. *)
Theorem decoded_output_is_well_formed (dt : dtype) (buf : list Byte.byte)
    (shape : list Z) :
  (length buf mod itemsize dt)%nat = 0%nat ->
  Forall (fun d => 0 <= d) shape ->
  exists a, decode_output dt buf shape = Py.Return a /\ nd_dtype a = dt /\ wf a.
Proof.
  intros Hlen Hshape. unfold decode_output, frombuffer.
  rewrite Hlen. cbn [Nat.eqb].
  set (flat := {| nd_dtype := dt;
                  nd_shape := [Z.of_nat (length buf / itemsize dt)];
                  nd_data := buffer_elements dt buf |}).
  destruct (resize_spec flat shape Hshape) as (r & Hr & Hdt & Hsh & Hsize & Hfill).
  exists r. cbn. rewrite Hr. split; [reflexivity|]. split; [exact Hdt|].
  unfold wf. rewrite Hsh, Hdt. cbn [nd_dtype flat]. repeat split; [exact Hshape|exact Hsize|].
  apply Forall_lookup. intros i x Hx.
  rewrite Hfill in Hx by (by apply lookup_lt_Some in Hx).
  cbn [nd_data flat] in Hx.
  pose proof (buffer_elements_in_range dt buf) as Hall.
  destruct (buffer_elements dt buf) as [|v vs] eqn:Evs.
  - injection Hx as <-. apply zero_in_range.
  - eapply Forall_lookup_1; [exact Hall|exact Hx].
Qed.

Lemma decoded_output_is_well_formed_witness :
  exists a, decode_output np_int8 [Byte.xff; Byte.x7f; Byte.x80] [2; 2] = Py.Return a
            /\ wf a /\ nd_data a = [-1; 127; -128; -1].
Proof.
  destruct (decoded_output_is_well_formed np_int8 [Byte.xff; Byte.x7f; Byte.x80] [2; 2]
              eq_refl ltac:(repeat constructor; lia)) as (a & Hdec & _ & Hwf).
  exists a. split; [exact Hdec|]. split; [exact Hwf|].
  vm_compute in Hdec. by injection Hdec as <-.
Defined.

(** X16: when the raw buffer holds at least as many elements as the
    declared shape asks for, the result is made of the first elements of
    the buffer, in order; the ones beyond are dropped without an error, and
    with equal counts the result is the buffer's elements exactly. *)
Theorem surplus_elements_are_dropped (dt : dtype) (buf : list Byte.byte)
    (shape : list Z) :
  (length buf mod itemsize dt)%nat = 0%nat ->
  Forall (fun d => 0 <= d) shape ->
  prod_shape shape <= Z.of_nat (length (buffer_elements dt buf)) ->
  decode_output dt buf shape
  = Py.Return {| nd_dtype := dt; nd_shape := shape;
                 nd_data := take (Z.to_nat (prod_shape shape)) (buffer_elements dt buf) |}.
Proof.
  intros Hlen Hshape Hle. unfold decode_output, frombuffer.
  rewrite Hlen. cbn [Nat.eqb].
  set (flat := {| nd_dtype := dt;
                  nd_shape := [Z.of_nat (length buf / itemsize dt)];
                  nd_data := buffer_elements dt buf |}).
  destruct (resize_spec flat shape Hshape) as (r & Hr & Hdt & Hsh & Hsize & Hfill).
  cbn. rewrite Hr. f_equal.
  destruct r as [rdt rshape rdata]. cbn [nd_dtype nd_shape nd_data flat] in *.
  subst rdt rshape. f_equal.
  apply list_eq. intros i.
  destruct (Nat.lt_ge_cases i (length rdata)) as [Hi|Hi].
  - rewrite (Hfill i Hi), lookup_take_lt by lia.
    destruct (buffer_elements dt buf) as [|v vs] eqn:Evs; [cbn in Hle; lia|].
    rewrite Nat.mod_small; [reflexivity|]. lia.
  - rewrite (lookup_ge_None_2 rdata i Hi). symmetry. apply lookup_ge_None_2.
    rewrite length_take. lia.
Qed.

Lemma surplus_elements_are_dropped_witness :
  decode_output np_uint8 [Byte.x01; Byte.x02; Byte.x03; Byte.x04; Byte.x05] [2; 2]
  = Py.Return {| nd_dtype := np_uint8; nd_shape := [2; 2]; nd_data := [1; 2; 3; 4] |}.
Proof.
  rewrite (surplus_elements_are_dropped np_uint8
             [Byte.x01; Byte.x02; Byte.x03; Byte.x04; Byte.x05] [2; 2]
             eq_refl ltac:(repeat constructor; lia) ltac:(vm_compute; discriminate)).
  reflexivity.
Defined.

(** X17: when the class attribute [_timeout] holds a value before a
    dispatcher is built, the dispatcher derives nothing and gets no
    attribute of its own, and both outbound calls, the POST of
    [send_request] and the call to the tensor server, are made with the
    class value. *)
Theorem class_timeout_is_used_by_both_calls (cs : class_state) (w : world)
    (endpoint : ModelEndpoint) (t : Z)
    (target : string) (version : option string) (posted data sink : value)
    (request : ModelInferRequest) :
  cls_timeout cs = Some t ->
  let self := new_instance cs w endpoint in
  outcome (build_request cs w self data) = Py.Return request ->
  _timeout self = None
  /\ call_timeouts (trace (_preprocess_send_request w cs target version posted)) = [Some t]
  /\ call_timeouts (trace (triton_process cs w self data sink)) = [Some t].
Proof.
  intros Hcls self Hbuild.
  assert (Hself : self = {| model_endpoint := endpoint; _preprocess := None;
                            _model := VNone; _timeout := None |}).
  { unfold self, new_instance, self_timeout. cbn. by rewrite Hcls. }
  split; [by rewrite Hself|]. split.
  - by rewrite send_request_timeout, Hcls.
  - assert (Hplugin : plugin_with self "process" = None) by (by rewrite Hself).
    rewrite (triton_process_trace cs w self data sink request Hplugin Hbuild).
    unfold call_timeouts. rewrite omap_app.
    fold (call_timeouts (trace (build_request cs w self data))).
    rewrite build_request_no_timeouts. cbn.
    by rewrite Hself; unfold self_timeout; cbn; rewrite Hcls.
Qed.

Lemma class_timeout_is_used_by_both_calls_witness :
  call_timeouts
    (trace (_preprocess_send_request world_up
              {| cls_server_config := ∅; cls_timeout := Some 30 |}
              "test_model" None VNone)) = [Some 30]
  /\ call_timeouts
       (trace (triton_process {| cls_server_config := ∅; cls_timeout := Some 30 |} world_up
                 (new_instance {| cls_server_config := ∅; cls_timeout := Some 30 |}
                               world_up endpoint_f32)
                 (VArray array_2x3) VNone)) = [Some 30].
Proof.
  assert (Hbuilt : exists request,
            outcome (build_request {| cls_server_config := ∅; cls_timeout := Some 30 |}
                       world_up
                       (new_instance {| cls_server_config := ∅; cls_timeout := Some 30 |}
                                     world_up endpoint_f32)
                       (VArray array_2x3)) = Py.Return request)
    by (eexists; reflexivity).
  destruct Hbuilt as [request Hbuilt].
  destruct (class_timeout_is_used_by_both_calls
              {| cls_server_config := ∅; cls_timeout := Some 30 |} world_up endpoint_f32 30
              "test_model" None VNone (VArray array_2x3) VNone request eq_refl Hbuilt)
    as (_ & Hpost & Hinfer).
  split; [exact Hpost|exact Hinfer].
Defined.

End TritonMore.

(** ** The scoring adapters and the imports: further theorems *)

Module AdapterFacts.
Import Numpy Serving Examples Samples Registry Adapters ServingFacts.

Local Open Scope Z_scope.
Local Open Scope list_scope.

Lemma io_eta {A} (m : io A) : IO (outcome m) (trace m) = m.
Proof. by destruct m. Qed.

Lemma bind_keep {A} (m : io A) (a : A) :
  outcome m = Py.Return a -> IO (Py.Return a) (trace m ++ []) = m.
Proof. intros H. rewrite app_nil_r, <- H. apply io_eta. Qed.

(** X18: when the base constructor leaves a model handle (the plugin's
    [load] returned one), the three scoring adapters add nothing to it:
    no library is imported, the model file is not asked for again, and the
    plugin's handle stays in [_model]. *)
Theorem plugin_model_is_kept (cs : class_state) (w : world) (libs : libraries)
    (endpoint : ModelEndpoint) (task : option Task) (self : BasePreprocessRequest) :
  outcome (__init__ cs w endpoint task) = Py.Return self ->
  _model self <> VNone ->
  sklearn_init cs w libs endpoint task = __init__ cs w endpoint task
  /\ xgboost_init cs w libs endpoint task = __init__ cs w endpoint task
  /\ lightgbm_init cs w libs endpoint task = __init__ cs w endpoint task.
Proof.
  intros Hbase Hmodel.
  unfold sklearn_init, xgboost_init, lightgbm_init.
  rewrite !(bind_return _ _ _ Hbase).
  destruct (_model self); try done; cbn [ret outcome trace];
    rewrite (bind_keep _ _ Hbase); done.
Qed.

Lemma plugin_model_is_kept_witness :
  sklearn_init class_init world_up libraries_up endpoint_py (Some (task_with "abc"))
  = __init__ class_init world_up endpoint_py (Some (task_with "abc")).
Proof.
  assert (Hbase : exists self,
            outcome (__init__ class_init world_up endpoint_py (Some (task_with "abc")))
            = Py.Return self /\ _model self = VObject "model")
    by (eexists; split; reflexivity).
  destruct Hbase as (self & Hbase & Hmodel).
  apply (proj1 (plugin_model_is_kept class_init world_up libraries_up endpoint_py
                  (Some (task_with "abc")) self Hbase
                  ltac:(rewrite Hmodel; discriminate))).
Defined.



(** X20: a tensor-server dispatcher is constructed exactly when the base
    constructor succeeds and [grpc], [tritonclient.utils] and
    [tritonclient.grpc] can all be imported; an import that fails there is
    not passed over as it is in [load_modules]. *)
Theorem triton_needs_its_imports (cs : class_state) (w : world) (libs : libraries)
    (endpoint : ModelEndpoint) (task : option Task) (self : BasePreprocessRequest) :
  outcome (triton_init cs w libs endpoint task) = Py.Return self
  <-> outcome (__init__ cs w endpoint task) = Py.Return self
      /\ import_module libs "grpc" = Py.Return tt
      /\ import_module libs "tritonclient.utils" = Py.Return tt
      /\ import_module libs "tritonclient.grpc" = Py.Return tt.
Proof.
  unfold triton_init, mbind, io_bind, bind, lift, ret.
  destruct (outcome (__init__ cs w endpoint task)) as [self0|e]; cbn [outcome trace].
  - destruct (import_module libs "grpc") as [[]|e1]; cbn [outcome trace].
    + destruct (import_module libs "tritonclient.utils") as [[]|e2]; cbn [outcome trace].
      * destruct (import_module libs "tritonclient.grpc") as [[]|e3]; cbn [outcome trace].
        -- split; [intros H; by repeat split|by intros (H & _)].
        -- split; [discriminate|by intros (_ & _ & _ & H)].
      * split; [discriminate|by intros (_ & _ & H & _)].
    + split; [discriminate|by intros (_ & H & _)].
  - split; [discriminate|by intros (H & _)].
Qed.

Example missing_grpc_passes_loading_but_not_construction :
  load_modules (libraries_partial ["tritonclient"] "") module_registry = Py.Return tt
  /\ outcome (triton_init class_init world_up (libraries_partial ["tritonclient"] "")
                endpoint_f32 None)
     = Py.Raise (Py.OtherError "ModuleNotFoundError" "grpc").
Proof. split; vm_compute; reflexivity. Qed.

End AdapterFacts.
